(** * Workspace orchestration layer of the data-quality client

    A shallow embedding of [frontend/src/App.jsx]: the [api] helper, the
    upload zone, the dataset list, the profile / rules / versions panels
    and the [App] container, followed by the properties of the
    natural-language specification that can be stated over them.

    Conventions of the embedding.
    - Values that come from the service are kept as parsed JSON ([jsval]),
      because that is what the components hold; JSON numbers are
      integers here (ids, counts, row totals).
    - An event handler is a computation in the monad [M]: it reads and
      writes the component state ([Store]), appends to a trace of
      observable events (requests, dialogs) and may throw.  Each [fetch]
      is answered by an oracle, indexed by the number of requests issued
      so far, so a handler is a total function of the oracle.
    - A handler is run to completion and a state setter takes effect at
      once; the interleaving of responses with other user events is
      modelled for the profile panel, as a transition system
      ([Module ProfilePanel]), and for the delete flow, through the
      closure that the handler calls ([App.handleDelete_closure]). *)

From Stdlib Require Import String Ascii ZArith List Bool Lia DecimalString.
Import ListNotations.
Local Open Scope string_scope.
Local Open Scope Z_scope.
Set Warnings "-register-all".

(** ** JavaScript values *)

Inductive jsval : Type :=
| JUndef
| JNull
| JBool (b : bool)
| JNum (n : Z)
| JStr (s : string)
| JArr (items : list jsval)
| JObj (fields : list (string * jsval)).

Record Error := mkError { message : string }.

Inductive result (A : Type) : Type :=
| Ok (a : A)
| Throw (e : Error).
Arguments Ok {A} a.
Arguments Throw {A} e.

Definition string_of_Z (z : Z) : string := NilZero.string_of_int (Z.to_int z).

(** ToBoolean. *)
Definition truthy (v : jsval) : bool :=
  match v with
  | JUndef | JNull => false
  | JBool b => b
  | JNum n => negb (n =? 0)
  | JStr s => negb (s =? "")%string
  | JArr _ | JObj _ => true
  end.

(** [a || b] and [a ?? b]. *)
Definition js_or (a b : jsval) : jsval := if truthy a then a else b.
Definition js_nullish (a b : jsval) : jsval :=
  match a with JUndef | JNull => b | _ => a end.

(** [typeof v === "object"]: true of objects, arrays and [null]. *)
Definition typeof_object (v : jsval) : bool :=
  match v with
  | JNull | JArr _ | JObj _ => true
  | _ => false
  end.

(** Strict equality [===] on primitives.  Two arrays or objects are equal
    only when they are the same reference, which parsed JSON values held
    in different places never are; identifiers are primitives. *)
Definition strict_eq (a b : jsval) : bool :=
  match a, b with
  | JUndef, JUndef => true
  | JNull, JNull => true
  | JBool x, JBool y => Bool.eqb x y
  | JNum x, JNum y => x =? y
  | JStr x, JStr y => (x =? y)%string
  | _, _ => false
  end.

Fixpoint assoc (k : string) (fs : list (string * jsval)) : jsval :=
  match fs with
  | [] => JUndef
  | (k', v) :: rest => if (k =? k')%string then v else assoc k rest
  end.

(** Property read on a value that is known not to be nullish: [v.k]. *)
Definition prop (v : jsval) (k : string) : jsval :=
  match v with
  | JObj fs => assoc k fs
  | JArr l => if (k =? "length")%string then JNum (Z.of_nat (length l)) else JUndef
  | JStr s => if (k =? "length")%string then JNum (Z.of_nat (String.length s)) else JUndef
  | _ => JUndef
  end.

(** Property read [v.k]: a TypeError on [null] and [undefined]. *)
Definition get (v : jsval) (k : string) : result jsval :=
  match v with
  | JUndef => Throw (mkError ("Cannot read properties of undefined (reading '" ++ k ++ "')"))
  | JNull => Throw (mkError ("Cannot read properties of null (reading '" ++ k ++ "')"))
  | _ => Ok (prop v k)
  end.

(** Optional chaining [v?.k]. *)
Definition get_opt (v : jsval) (k : string) : jsval :=
  match v with
  | JUndef | JNull => JUndef
  | _ => prop v k
  end.

(** ToString, as used by template literals and [+] on strings. *)
Fixpoint to_string (v : jsval) : string :=
  match v with
  | JUndef => "undefined"
  | JNull => "null"
  | JBool true => "true"
  | JBool false => "false"
  | JNum n => string_of_Z n
  | JStr s => s
  | JArr l =>
      (fix join (l : list jsval) : string :=
         match l with
         | [] => ""
         | x :: rest =>
             let sx := match x with JUndef | JNull => "" | _ => to_string x end in
             match rest with
             | [] => sx
             | _ => sx ++ "," ++ join rest
             end
         end) l
  | JObj _ => "[object Object]"
  end.

(** [s.endsWith(suffix)]. *)
Definition endsWith (s suffix : string) : bool :=
  let n := String.length s in
  let m := String.length suffix in
  (m <=? n)%nat && (substring (n - m) m s =? suffix)%string.

(** [s.includes(sub)]. *)
Fixpoint includes (s sub : string) : bool :=
  prefix sub s ||
  match s with
  | EmptyString => false
  | String _ s' => includes s' sub
  end.

(** ** The browser: requests, responses, dialogs *)

Record File := { name : string }.

Inductive Body : Type :=
| NoBody
| FormData (field : string) (file : File)
| JsonText (text : string).

Record Request := {
  url : string;
  method : string;
  body : Body
}.

(** A response as [fetch] delivers it.  [r.json()] either yields the
    parsed body or rejects. *)
Record Response := {
  status : Z;
  statusText : string;
  json : result jsval
}.

(** [r.ok]: the status is in the range 200-299 (Fetch standard). *)
Definition ok (r : Response) : bool := (200 <=? status r) && (status r <=? 299).

Inductive Outcome : Type :=
| NetworkError (e : Error)
| Resp (r : Response).

Inductive Event : Type :=
| EvFetch (req : Request)
| EvConfirm (question : string) (answer : bool)
| EvAlert (text : string).

Definition is_fetch (e : Event) : bool :=
  match e with EvFetch _ => true | _ => false end.

Fixpoint requests (t : list Event) : list Request :=
  match t with
  | [] => []
  | EvFetch r :: t' => r :: requests t'
  | _ :: t' => requests t'
  end.

(** The environment answers the n-th request and every confirmation
    dialog. *)
Record Oracle := {
  net : nat -> Request -> Outcome;
  confirm : string -> bool
}.

Definition API_BASE : string := "http://localhost:8000".

(** ** Rendering

    What a component returns is kept as a tree of elements and text;
    styles and keys are left out. *)

Inductive node : Type :=
| Text (s : string)
| El (tag : string) (children : list node).

Definition rbind {A B} (r : result A) (f : A -> result B) : result B :=
  match r with
  | Ok a => f a
  | Throw e => Throw e
  end.

Fixpoint map_result {A B} (f : A -> result B) (l : list A) : result (list B) :=
  match l with
  | [] => Ok []
  | x :: rest =>
      rbind (f x) (fun y => rbind (map_result f rest) (fun ys => Ok (y :: ys)))
  end.

(** A JavaScript value in child position [{v}]: booleans, [null] and
    [undefined] render nothing, numbers and strings render as text, an
    array renders its items, a plain object is refused by React. *)
Fixpoint child (v : jsval) : result (list node) :=
  match v with
  | JUndef | JNull | JBool _ => Ok []
  | JNum n => Ok [Text (string_of_Z n)]
  | JStr s => Ok [Text s]
  | JArr l =>
      (fix items (l : list jsval) : result (list node) :=
         match l with
         | [] => Ok []
         | x :: rest =>
             rbind (child x) (fun a => rbind (items rest) (fun b => Ok (a ++ b)%list))
         end) l
  | JObj _ => Throw (mkError "Objects are not valid as a React child")
  end.

(** [{c && jsx}]: a falsy [c] is itself the child. *)
Definition and_then (c : jsval) (jsx : result (list node)) : result (list node) :=
  if truthy c then jsx else child c.

(** [v > 0] for the values a [length] property takes here: numbers and
    booleans are compared as numbers, [undefined] gives NaN and [null]
    gives 0; a string-valued [length] is not converted. *)
Definition js_gt0 (v : jsval) : bool :=
  match v with
  | JNum n => 0 <? n
  | JBool b => b
  | _ => false
  end.

(** The text a reader sees: the concatenation of the text nodes. *)
Fixpoint text_of (n : node) : string :=
  match n with
  | Text s => s
  | El _ cs =>
      (fix all (cs : list node) : string :=
         match cs with
         | [] => ""
         | c :: rest => text_of c ++ all rest
         end) cs
  end.

(** ** Component state

    One record per component, with the fields of its [useState] hooks. *)

(** The upload message: [{ ok, text, details }]; [details] is [JUndef]
    when the property is absent. *)
Record Msg := {
  msg_ok : bool;
  text : jsval;
  details : jsval
}.

Record AppState := {
  datasets : jsval;
  selected : jsval;
  activeTab : string;
  sideOpen : bool
}.

Record UploadZoneState := {
  dragging : bool;
  uploading : bool;
  msg : option Msg
}.

Record DatasetListState := {
  deleting : jsval
}.

Record VersionsPanelState := {
  versions : jsval;
  comparison : jsval;
  selectedV1 : jsval;
  selectedV2 : jsval;
  vp_uploading : bool;
  vp_loading : bool
}.

Record Store := {
  app : AppState;
  uploadZone : UploadZoneState;
  datasetList : DatasetListState;
  versionsPanel : VersionsPanelState
}.

Definition initialApp : AppState :=
  {| datasets := JArr []; selected := JNull; activeTab := "profile"; sideOpen := true |}.
Definition initialUploadZone : UploadZoneState :=
  {| dragging := false; uploading := false; msg := None |}.
Definition initialDatasetList : DatasetListState := {| deleting := JNull |}.
Definition initialVersionsPanel : VersionsPanelState :=
  {| versions := JArr []; comparison := JNull; selectedV1 := JNull;
     selectedV2 := JNull; vp_uploading := false; vp_loading := false |}.
Definition initialStore : Store :=
  {| app := initialApp; uploadZone := initialUploadZone;
     datasetList := initialDatasetList; versionsPanel := initialVersionsPanel |}.

Definition with_app (f : AppState -> AppState) (s : Store) : Store :=
  {| app := f (app s); uploadZone := uploadZone s;
     datasetList := datasetList s; versionsPanel := versionsPanel s |}.
Definition with_uploadZone (f : UploadZoneState -> UploadZoneState) (s : Store) : Store :=
  {| app := app s; uploadZone := f (uploadZone s);
     datasetList := datasetList s; versionsPanel := versionsPanel s |}.
Definition with_datasetList (f : DatasetListState -> DatasetListState) (s : Store) : Store :=
  {| app := app s; uploadZone := uploadZone s;
     datasetList := f (datasetList s); versionsPanel := versionsPanel s |}.
Definition with_versionsPanel (f : VersionsPanelState -> VersionsPanelState) (s : Store) : Store :=
  {| app := app s; uploadZone := uploadZone s;
     datasetList := datasetList s; versionsPanel := f (versionsPanel s) |}.

(** ** The handler monad *)

Record World := {
  store : Store;
  trace : list Event
}.

Definition M (A : Type) : Type := Oracle -> World -> result A * World.

Definition ret {A} (a : A) : M A := fun _ w => (Ok a, w).

Definition bind {A B} (m : M A) (f : A -> M B) : M B :=
  fun o w =>
    match m o w with
    | (Ok a, w') => f a o w'
    | (Throw e, w') => (Throw e, w')
    end.

Definition throw {A} (e : Error) : M A := fun _ w => (Throw e, w).

(** [try { m } catch (e) { h e }]. *)
Definition try_catch {A} (m : M A) (h : Error -> M A) : M A :=
  fun o w =>
    match m o w with
    | (Ok a, w') => (Ok a, w')
    | (Throw e, w') => h e o w'
    end.

(** [try { m } finally { f }]: [f] runs on both exits. *)
Definition finally {A} (m : M A) (f : M unit) : M A :=
  fun o w =>
    match m o w with
    | (r, w') =>
        match f o w' with
        | (Ok _, w'') => (r, w'')
        | (Throw e, w'') => (Throw e, w'')
        end
    end.

Declare Scope handler_scope.
Delimit Scope handler_scope with handler.
Notation "x <- m ;; k" := (bind m (fun x => k))
  (at level 61, m at next level, right associativity) : handler_scope.
Notation "m ;; k" := (bind m (fun _ => k))
  (at level 61, right associativity) : handler_scope.
Local Open Scope handler_scope.

Definition lift {A} (r : result A) : M A := fun _ w => (r, w).

Definition emit (e : Event) : M unit :=
  fun _ w => (Ok tt, {| store := store w; trace := trace w ++ [e] |}).

Definition modify (f : Store -> Store) : M unit :=
  fun _ w => (Ok tt, {| store := f (store w); trace := trace w |}).

Definition read : M Store := fun _ w => (Ok (store w), w).

(** [fetch(url, opts)]: the request is logged and the oracle answers it;
    a network failure rejects the promise. *)
Definition fetch (req : Request) : M Response :=
  fun o w =>
    let w' := {| store := store w; trace := trace w ++ [EvFetch req] |} in
    match net o (length (requests (trace w))) req with
    | NetworkError e => (Throw e, w')
    | Resp r => (Ok r, w')
    end.

Definition alert (text : string) : M unit := emit (EvAlert text).

Definition window_confirm (question : string) : M bool :=
  fun o w =>
    let a := confirm o question in
    (Ok a, {| store := store w; trace := trace w ++ [EvConfirm question a] |}).

(** ** [api] (lines 25-30) *)

Record Opts := {
  o_method : string;
  o_body : Body
}.

(** [opts = {}]: a GET without body. *)
Definition default_opts : Opts := {| o_method := "GET"; o_body := NoBody |}.

Definition mkRequest (u : string) (opts : Opts) : Request :=
  {| url := u; method := o_method opts; body := o_body opts |}.

(** The [.then] callback of [api]. *)
Definition api_then (r : Response) : result jsval :=
  if negb (ok r)
  then Throw (mkError (string_of_Z (status r) ++ " " ++ statusText r))
  else json r.

Definition api (path : string) (opts : Opts) : M jsval :=
  r <- fetch (mkRequest (API_BASE ++ path) opts) ;;
  lift (api_then r).

(** ** [App] (lines 1338-1361): the dataset list and the selection *)

(** [arr.filter(p)] where the callback itself may throw. *)
Fixpoint filter_items (p : jsval -> result bool) (l : list jsval) : result (list jsval) :=
  match l with
  | [] => Ok []
  | x :: rest =>
      rbind (p x) (fun keep =>
      rbind (filter_items p rest) (fun rest' =>
      Ok (if keep then x :: rest' else rest')))
  end.

Definition array_filter (p : jsval -> result bool) (v : jsval) : result jsval :=
  match v with
  | JArr l => rbind (filter_items p l) (fun l' => Ok (JArr l'))
  | JUndef => Throw (mkError "Cannot read properties of undefined (reading 'filter')")
  | JNull => Throw (mkError "Cannot read properties of null (reading 'filter')")
  | _ => Throw (mkError "prev.filter is not a function")
  end.

Module App.

Definition setDatasets (d : jsval) : M unit :=
  modify (with_app (fun a =>
    {| datasets := d; selected := selected a;
       activeTab := activeTab a; sideOpen := sideOpen a |})).

Definition setSelected (d : jsval) : M unit :=
  modify (with_app (fun a =>
    {| datasets := datasets a; selected := d;
       activeTab := activeTab a; sideOpen := sideOpen a |})).

Definition setActiveTab (t : string) : M unit :=
  modify (with_app (fun a =>
    {| datasets := datasets a; selected := selected a;
       activeTab := t; sideOpen := sideOpen a |})).

(** [try { setDatasets(await api("/datasets")); } catch {}] *)
Definition loadDatasets : M unit :=
  try_catch (d <- api "/datasets" default_opts ;; setDatasets d)
            (fun _ => ret tt).

(** [ds => ds.id !== deletedId] *)
Definition keeps (deletedId ds : jsval) : result bool :=
  rbind (get ds "id") (fun i => Ok (negb (strict_eq i deletedId))).

(** Lines 1348-1353. *)
Definition handleDelete (deletedId : jsval) : M unit :=
  s <- read ;;
  prev' <- lift (array_filter (keeps deletedId) (datasets (app s))) ;;
  setDatasets prev' ;;
  if strict_eq (get_opt (selected (app s)) "id") deletedId
  then setSelected JNull
  else ret tt.

(** [handleDelete] as the closure of one render of [App]: [selected] is
    the value that render saw (line 1350), while the list is updated
    from the current state (the functional update of line 1349).
    [DatasetList.handleDelete] calls the closure it was given when the
    button was clicked, after the answer has arrived. *)
Definition handleDelete_closure (selected_seen deletedId : jsval) : M unit :=
  s <- read ;;
  prev' <- lift (array_filter (keeps deletedId) (datasets (app s))) ;;
  setDatasets prev' ;;
  if strict_eq (get_opt selected_seen "id") deletedId
  then setSelected JNull
  else ret tt.

(** Lines 1357-1361. *)
Definition handleUploaded (ds : jsval) : M unit :=
  loadDatasets ;;
  setSelected ds ;;
  setActiveTab "profile".

(** The [onSelect] prop given to the dataset list (lines 1420-1423). *)
Definition onSelect (ds : jsval) : M unit :=
  setSelected ds ;;
  setActiveTab "profile".

End App.

(** ** [UploadZone] (lines 139-177) *)

Definition dquote : string := String (ascii_of_nat 34) EmptyString.

Definition post (b : Body) : Opts := {| o_method := "POST"; o_body := b |}.

Module UploadZone.

Definition setUploading (b : bool) : M unit :=
  modify (with_uploadZone (fun u =>
    {| dragging := dragging u; uploading := b; msg := msg u |})).

Definition setMsg (m : option Msg) : M unit :=
  modify (with_uploadZone (fun u =>
    {| dragging := dragging u; uploading := uploading u; msg := m |})).

(** [!file || !file.name.endsWith(".csv")]; [None] is a missing file. *)
Definition not_csv (file : option File) : bool :=
  match file with
  | None => true
  | Some f => negb (endsWith (name f) ".csv")
  end.

(** The inner [try] of the [catch] block (lines 158-175): the upload is
    posted again with plain [fetch] and the body of the answer is read
    whatever its status. *)
Definition readDetail (fd : Body) (e : Error) : M unit :=
  try_catch
    (r <- fetch (mkRequest (API_BASE ++ "/datasets/upload") (post fd)) ;;
     errData <- lift (json r) ;;
     detail <- lift (get errData "detail") ;;
     if truthy detail && typeof_object detail
     then setMsg (Some {| msg_ok := false;
                          text := js_or (prop detail "error") (JStr "Upload failed");
                          details := detail |})
     else setMsg (Some {| msg_ok := false; text := JStr (message e); details := JUndef |}))
    (fun _ =>
       setMsg (Some {| msg_ok := false;
                       text := JStr ("Upload failed: " ++ message e);
                       details := JUndef |})).

Definition upload (onUploaded : jsval -> M unit) (file : option File) : M unit :=
  if not_csv file
  then setMsg (Some {| msg_ok := false;
                       text := JStr "Only CSV files are supported.";
                       details := JUndef |})
  else
    match file with
    | None => ret tt (* excluded by the guard above *)
    | Some f =>
        setUploading true ;;
        setMsg None ;;
        let fd := FormData "file" f in
        finally
          (try_catch
             (ds <- api "/datasets/upload" (post fd) ;;
              nm <- lift (get ds "name") ;;
              rows <- lift (get ds "total_rows") ;;
              setMsg (Some {| msg_ok := true;
                              text := JStr ("✓ " ++ dquote ++ to_string nm ++ dquote
                                            ++ " uploaded — " ++ to_string rows ++ " rows");
                              details := JUndef |}) ;;
              onUploaded ds)
             (readDetail fd))
          (setUploading false)
    end.

(** The message block under the drop area (lines 206-259). *)
Definition render_issue (issue : jsval) : result node :=
  rbind (child issue) (fun c => Ok (El "p" (Text "• " :: c))).

Definition render_found_issues (fi : jsval) : result (list node) :=
  if js_gt0 (get_opt fi "length")
  then
    match fi with
    | JArr l =>
        rbind (map_result render_issue l) (fun ps =>
        Ok [El "div" (El "p" [Text "Found issues:"] :: ps)])
    | _ => Throw (mkError "msg.details.found_issues.map is not a function")
    end
  else Ok [].

Definition render_details (d : jsval) : result node :=
  rbind (and_then (prop d "reason")
           (rbind (child (prop d "reason")) (fun c => Ok [El "p" (Text "⚠ " :: c)])))
    (fun reason =>
  rbind (and_then (prop d "explanation")
           (rbind (child (prop d "explanation")) (fun c => Ok [El "p" c])))
    (fun explanation =>
  rbind (render_found_issues (prop d "found_issues"))
    (fun issues =>
  rbind (and_then (prop d "how_to_fix")
           (rbind (child (prop d "how_to_fix")) (fun c => Ok [El "p" (Text "💡 " :: c)])))
    (fun fix_ =>
  Ok (El "div" (reason ++ explanation ++ issues ++ fix_)%list))))).

Definition render_msg (m : option Msg) : result (list node) :=
  match m with
  | None => Ok []
  | Some m =>
      rbind (child (text m)) (fun t =>
      rbind (and_then (details m)
               (rbind (render_details (details m)) (fun d => Ok [d])))
        (fun d =>
      Ok [El "div"
            (El "p" (Text (if msg_ok m then "✓" else "✗") :: Text " " :: t) :: d)]))
  end.

End UploadZone.

(** ** [DatasetList.handleDelete] (lines 270-289) *)

Module DatasetList.

Definition setDeleting (v : jsval) : M unit :=
  modify (with_datasetList (fun _ => {| deleting := v |})).

Definition delete_opts : Opts := {| o_method := "DELETE"; o_body := NoBody |}.

(** [e.stopPropagation()] keeps the click from reaching the row, so
    the handler does not select the dataset. *)
(** The text of the confirmation dialog. *)
Definition question (nm : jsval) : string :=
  "Delete " ++ dquote ++ to_string nm ++ dquote ++ "? This cannot be undone.".

Definition delete_path (ds : jsval) : string :=
  "/datasets/" ++ to_string (prop ds "id").

Definition handleDelete (onDelete : jsval -> M unit) (ds : jsval) : M unit :=
  nm <- lift (get ds "name") ;;
  yes <- window_confirm (question nm) ;;
  if negb yes then ret tt
  else
    setDeleting (prop ds "id") ;;
    finally
      (try_catch
         (api (delete_path ds) delete_opts ;;
          onDelete (prop ds "id"))
         (fun e =>
            alert (if includes (message e) "version"
                   then "Cannot delete: child versions exist. Delete them first."
                   else "Delete failed: " ++ message e)))
      (setDeleting JNull).

End DatasetList.

(** ** [VersionsPanel] (lines 1006-1061, 1107-1121, 1142-1148) *)

Module VersionsPanel.

Definition setVersions (v : jsval) : M unit :=
  modify (with_versionsPanel (fun p =>
    {| versions := v; comparison := comparison p; selectedV1 := selectedV1 p;
       selectedV2 := selectedV2 p; vp_uploading := vp_uploading p;
       vp_loading := vp_loading p |})).

Definition setComparison (v : jsval) : M unit :=
  modify (with_versionsPanel (fun p =>
    {| versions := versions p; comparison := v; selectedV1 := selectedV1 p;
       selectedV2 := selectedV2 p; vp_uploading := vp_uploading p;
       vp_loading := vp_loading p |})).

Definition setSelectedV1 (v : jsval) (p : VersionsPanelState) : VersionsPanelState :=
  {| versions := versions p; comparison := comparison p; selectedV1 := v;
     selectedV2 := selectedV2 p; vp_uploading := vp_uploading p;
     vp_loading := vp_loading p |}.

Definition setSelectedV2 (v : jsval) (p : VersionsPanelState) : VersionsPanelState :=
  {| versions := versions p; comparison := comparison p; selectedV1 := selectedV1 p;
     selectedV2 := v; vp_uploading := vp_uploading p;
     vp_loading := vp_loading p |}.

Definition setUploading (b : bool) : M unit :=
  modify (with_versionsPanel (fun p =>
    {| versions := versions p; comparison := comparison p; selectedV1 := selectedV1 p;
       selectedV2 := selectedV2 p; vp_uploading := b;
       vp_loading := vp_loading p |})).

Definition setLoading (b : bool) : M unit :=
  modify (with_versionsPanel (fun p =>
    {| versions := versions p; comparison := comparison p; selectedV1 := selectedV1 p;
       selectedV2 := selectedV2 p; vp_uploading := vp_uploading p;
       vp_loading := b |})).

(** Lines 1014-1019; [dataset] is the prop of the panel. *)
Definition loadVersions (dataset : jsval) : M unit :=
  try_catch
    (i <- lift (get dataset "id") ;;
     data <- api ("/datasets/" ++ to_string i ++ "/versions") default_opts ;;
     vs <- lift (get data "versions") ;;
     setVersions (js_or vs (JArr [])))
    (fun _ => ret tt).

(** Lines 1028-1045. *)
Definition uploadNewVersion (dataset : jsval) (file : option File) : M unit :=
  if UploadZone.not_csv file
  then alert "Only CSV files allowed"
  else
    match file with
    | None => ret tt (* excluded by the guard above *)
    | Some f =>
        setUploading true ;;
        let fd := FormData "file" f in
        finally
          (try_catch
             (i <- lift (get dataset "id") ;;
              api ("/datasets/" ++ to_string i ++ "/new-version") (post fd) ;;
              loadVersions dataset ;;
              alert "✓ New version uploaded!")
             (fun e => alert ("Upload failed: " ++ message e)))
          (setUploading false)
    end.

(** The guard of [compare] and the condition under which the compare
    button is rendered: [selectedV1 && selectedV2]. *)
Definition canCompare (p : VersionsPanelState) : bool :=
  truthy (selectedV1 p) && truthy (selectedV2 p).

(** Lines 1047-1061. *)
Definition compare : M unit :=
  s <- read ;;
  let p := versionsPanel s in
  if negb (truthy (selectedV1 p)) || negb (truthy (selectedV2 p))
  then alert "Select two versions to compare"
  else
    setLoading true ;;
    finally
      (try_catch
         (data <- api ("/datasets/" ++ to_string (selectedV1 p) ++ "/compare/"
                       ++ to_string (selectedV2 p)) default_opts ;;
          setComparison data)
         (fun e => alert ("Compare failed: " ++ message e)))
      (setLoading false).

(** The checkbox of the version with id [vid] (lines 1107-1121). *)
Definition checked (p : VersionsPanelState) (vid : jsval) : bool :=
  strict_eq (selectedV1 p) vid || strict_eq (selectedV2 p) vid.

Definition disabled (p : VersionsPanelState) (vid : jsval) : bool :=
  truthy (selectedV1 p) && truthy (selectedV2 p)
  && negb (strict_eq (selectedV1 p) vid) && negb (strict_eq (selectedV2 p) vid).

(** [onChange]; [target_checked] is [e.target.checked].  Both branches
    read [selectedV1] and [selectedV2] of the current render. *)
Definition onChange (vid : jsval) (target_checked : bool)
    (p : VersionsPanelState) : VersionsPanelState :=
  if target_checked then
    if negb (truthy (selectedV1 p)) then setSelectedV1 vid p
    else if negb (truthy (selectedV2 p)) then setSelectedV2 vid p
    else p
  else
    let p1 := if strict_eq (selectedV1 p) vid then setSelectedV1 JNull p else p in
    if strict_eq (selectedV2 p) vid then setSelectedV2 JNull p1 else p1.

(** A click on the checkbox: a disabled box ignores it, an enabled one
    reports the opposite of what it shows. *)
Definition toggle (vid : jsval) (p : VersionsPanelState) : VersionsPanelState :=
  if disabled p vid then p
  else onChange vid (negb (checked p vid)) p.

(** The compare button (lines 1142-1148): it is rendered when
    [selectedV1 && selectedV2], and then with [disabled={loading}].
    [None] is no button, [Some d] a button whose [disabled] is [d]. *)
Definition compareButton (p : VersionsPanelState) : option bool :=
  if canCompare p then Some (vp_loading p) else None.

(** States reached from the reset of lines 1021-1026 by clicking the
    boxes of the listed version ids. *)
Inductive reachable (ids : list jsval) : VersionsPanelState -> Prop :=
| reach_reset : forall p,
    selectedV1 p = JNull -> selectedV2 p = JNull -> reachable ids p
| reach_toggle : forall p vid,
    reachable ids p -> In vid ids -> reachable ids (toggle vid p).

End VersionsPanel.

(** ** [RulesPanel]: the validation results (lines 872-998) *)

Fixpoint index_entries (i : nat) (l : list jsval) : list (string * jsval) :=
  match l with
  | [] => []
  | x :: rest => (string_of_Z (Z.of_nat i), x) :: index_entries (S i) rest
  end.

Definition digit_of (c : ascii) : option N :=
  let n := N_of_ascii c in
  if ((48 <=? n) && (n <=? 57))%N then Some (n - 48)%N else None.

Fixpoint decimal (s : string) (acc : N) : option N :=
  match s with
  | EmptyString => Some acc
  | String c rest =>
      match digit_of c with
      | Some d => decimal rest (10 * acc + d)%N
      | None => None
      end
  end.

(** An array index: the canonical decimal text of an integer from 0 to
    2^32 - 2 (no sign, no leading zero). *)
Definition array_index (k : string) : option N :=
  match k with
  | EmptyString => None
  | String c rest =>
      if (c =? "0")%char && negb (rest =? "")%string then None
      else
        match decimal k 0 with
        | Some n => if (n <? 4294967295)%N then Some n else None
        | None => None
        end
  end.

(** The fields an object has: a field whose name was used by an earlier
    one is shadowed ([assoc] reads the first). *)
Fixpoint own_fields (fs : list (string * jsval)) : list (string * jsval) :=
  match fs with
  | [] => []
  | kv :: rest =>
      kv :: filter (fun kv' => negb (fst kv' =? fst kv)%string) (own_fields rest)
  end.

Fixpoint insert_index (n : N) (kv : string * jsval)
    (l : list (N * (string * jsval))) : list (N * (string * jsval)) :=
  match l with
  | [] => [(n, kv)]
  | (m, kv') :: rest =>
      if (n <? m)%N then (n, kv) :: l else (m, kv') :: insert_index n kv rest
  end.

Definition indexed_fields (fs : list (string * jsval)) : list (N * (string * jsval)) :=
  fold_right (fun kv acc =>
                match array_index (fst kv) with
                | Some n => insert_index n kv acc
                | None => acc
                end) [] fs.

Definition named_field (kv : string * jsval) : bool :=
  match array_index (fst kv) with
  | Some _ => false
  | None => true
  end.

(** The order in which JavaScript lists the own properties of an
    object: array indices first, in ascending numeric order, then the
    other names in the order the fields were created. *)
Definition ordered_fields (fs : list (string * jsval)) : list (string * jsval) :=
  (map snd (indexed_fields (own_fields fs)) ++ filter named_field (own_fields fs))%list.

(** [Object.entries(v)]; a string is split into its bytes. *)
Definition object_entries (v : jsval) : result (list (string * jsval)) :=
  match v with
  | JObj fs => Ok (ordered_fields fs)
  | JArr l => Ok (index_entries 0 l)
  | JStr s =>
      Ok (index_entries 0
            (map (fun c => JStr (String c EmptyString)) (list_ascii_of_string s)))
  | JUndef | JNull => Throw (mkError "Cannot convert undefined or null to object")
  | _ => Ok []
  end.

Module RulesPanel.

(** [<p>{valResult.passed} passed, {valResult.failed} failed</p>]
    (lines 892-894), a part of [render_valResult] below. *)
Definition render_summary (valResult : jsval) : result node :=
  rbind (child (prop valResult "passed")) (fun p =>
  rbind (child (prop valResult "failed")) (fun f =>
  Ok (El "p" (p ++ [Text " passed, "] ++ f ++ [Text " failed"])%list))).

(** [<span>{k}: {val}</span>] *)
Definition render_entry (kv : string * jsval) : result node :=
  rbind (child (snd kv)) (fun c => Ok (El "span" (Text (fst kv) :: Text ": " :: c))).

(** One sampled violation (lines 971-990). *)
Definition render_violation (v : jsval) : result node :=
  rbind (get v "row_index") (fun row_index =>
  rbind (child row_index) (fun ri =>
  rbind (child (prop v "column_value")) (fun cv =>
  rbind (object_entries (prop v "row_data")) (fun entries =>
  rbind (map_result render_entry entries) (fun spans =>
  Ok (El "div"
        [El "div" (Text "Row " :: ri ++ [Text ": "; El "span" cv])%list;
         El "div" spans])))))).

(** The header line of the violation panel (lines 954-962). *)
Definition render_violations_header (r vd : jsval) : result node :=
  rbind (child (prop r "violations")) (fun total =>
  rbind (child (prop vd "length")) (fun shown =>
  Ok (El "p" (Text "Violations (" :: total ++ Text " total, showing first "
                :: shown ++ [Text "):"])%list))).

(** [{r.violation_details && r.violation_details.length > 0 && (...)}] *)
Definition render_violations (r : jsval) : result (list node) :=
  rbind (get r "violation_details") (fun vd =>
  and_then vd
    (if js_gt0 (prop vd "length")
     then
       rbind (render_violations_header r vd) (fun header =>
       match vd with
       | JArr l =>
           rbind (map_result render_violation l) (fun rows =>
           Ok [El "div" [header; El "div" rows]])
       | _ => Throw (mkError "r.violation_details.map is not a function")
       end)
     else Ok [])).

(** The card of one rule result (lines 899-995).  [key={r.rule_id}] is
    the first read on [r]; [JSON.stringify] is the platform's. *)
Definition render_rule (JSON_stringify : jsval -> string) (r : jsval) : result node :=
  rbind (get r "rule_id") (fun _ =>
  rbind (child (prop r "column")) (fun column =>
  rbind (child (prop r "rule_type")) (fun rule_type =>
  rbind (and_then (prop r "parameters")
           (Ok [El "span" [Text (JSON_stringify (prop r "parameters"))]]))
    (fun parameters =>
  rbind (child (prop r "status")) (fun status =>
  rbind (child (prop r "message")) (fun message =>
  rbind (render_violations r) (fun violations =>
  Ok (El "div"
        (El "div" [El "div" (El "span" column :: El "span" rule_type :: parameters);
                   El "span" status]
         :: El "p" message
         :: violations))))))))).

(** [valResult.overall_status === "PASSED" ? ... : ...] (line 890). *)
Definition headline (valResult : jsval) : string :=
  if strict_eq (prop valResult "overall_status") (JStr "PASSED")
  then "✓ All Rules Passed"
  else "✗ Validation Failed".

(** The validation results block (lines 872-998):
    [{valResult && (<Card>...</Card>)}], where the card holds the title,
    the box with the headline and the summary, and one card per rule
    result from the unguarded [valResult.results.map].  When more than
    one part of the block fails, the first failure in document order is
    the one reported. *)
Definition render_valResult (JSON_stringify : jsval -> string) (valResult : jsval)
    : result (list node) :=
  and_then valResult
    (rbind (render_summary valResult) (fun summary =>
     match prop valResult "results" with
     | JArr rs =>
         rbind (map_result (render_rule JSON_stringify) rs) (fun cards =>
         Ok [El "div"
               (El "h4" [Text "Validation Results"]
                :: El "div" [El "p" [Text (headline valResult)]; summary]
                :: cards)])
     | JUndef => Throw (mkError "Cannot read properties of undefined (reading 'map')")
     | JNull => Throw (mkError "Cannot read properties of null (reading 'map')")
     | _ => Throw (mkError "valResult.results.map is not a function")
     end)).

End RulesPanel.

(** ** [ProfilePanel] (lines 358-378)

    One mounted instance of the panel.  [App] renders
    [<ProfilePanel dataset={selected}/>] without a key, so selecting
    another dataset while the profile tab is open re-renders the same
    instance with a new [dataset] prop.  Requests stay in flight until
    the environment settles them, in any order. *)

Module ProfilePanel.

(** Which continuation waits for the answer: the [.then(setData)] of the
    effect or the [await] of [runProfile]. *)
Inductive Origin : Type := FromEffect | FromRun.

Record Pending := {
  p_req : Request;
  p_origin : Origin
}.

Record State := {
  dataset : jsval;
  data : jsval;
  loading : bool;
  tab : string;
  inflight : list Pending;
  alerts : list string
}.

Inductive Ev : Type :=
| Props (ds : jsval)              (* the parent renders the panel with this dataset *)
| RunClick                        (* the Run Analysis button *)
| SetTab (t : string)
| Settle (k : nat) (o : Outcome). (* the k-th request in flight is answered *)

Definition profile_path (ds : jsval) : string :=
  "/datasets/" ++ to_string (prop ds "id") ++ "/profile".

Definition profile_request (ds : jsval) (opts : Opts) : Request :=
  mkRequest (API_BASE ++ profile_path ds) opts.

(** The effect of lines 370-373. *)
Definition effect (s : State) : State :=
  {| dataset := dataset s;
     data := JNull;
     loading := loading s;
     tab := "overview";
     inflight := (inflight s ++
                  [{| p_req := profile_request (dataset s) default_opts;
                      p_origin := FromEffect |}])%list;
     alerts := alerts s |}.

Definition mount (ds : jsval) : State :=
  effect {| dataset := ds; data := JNull; loading := false; tab := "overview";
            inflight := []; alerts := [] |}.

Definition with_dataset (ds : jsval) (s : State) : State :=
  {| dataset := ds; data := data s; loading := loading s; tab := tab s;
     inflight := inflight s; alerts := alerts s |}.

Definition setData (v : jsval) (s : State) : State :=
  {| dataset := dataset s; data := v; loading := loading s; tab := tab s;
     inflight := inflight s; alerts := alerts s |}.

Definition setLoading (b : bool) (s : State) : State :=
  {| dataset := dataset s; data := data s; loading := b; tab := tab s;
     inflight := inflight s; alerts := alerts s |}.

Definition setTab (t : string) (s : State) : State :=
  {| dataset := dataset s; data := data s; loading := loading s; tab := t;
     inflight := inflight s; alerts := alerts s |}.

Definition add_alert (m : string) (s : State) : State :=
  {| dataset := dataset s; data := data s; loading := loading s; tab := tab s;
     inflight := inflight s; alerts := (alerts s ++ [m])%list |}.

Definition issue (p : Pending) (s : State) : State :=
  {| dataset := dataset s; data := data s; loading := loading s; tab := tab s;
     inflight := (inflight s ++ [p])%list; alerts := alerts s |}.

Fixpoint remove_nth {A} (k : nat) (l : list A) : list A :=
  match l, k with
  | [], _ => []
  | _ :: rest, O => rest
  | x :: rest, S k' => x :: remove_nth k' rest
  end.

Definition drop (k : nat) (s : State) : State :=
  {| dataset := dataset s; data := data s; loading := loading s; tab := tab s;
     inflight := remove_nth k (inflight s); alerts := alerts s |}.

(** What the promise returned by [api] settles to. *)
Definition settled (o : Outcome) : result jsval :=
  match o with
  | NetworkError e => Throw e
  | Resp r => api_then r
  end.

(** [runProfile] up to its [await] (lines 363-365); the button is
    disabled while [loading]. *)
Definition runProfile (s : State) : State :=
  if loading s then s
  else issue {| p_req := profile_request (dataset s) (post NoBody);
                p_origin := FromRun |}
             (setLoading true s).

(** The continuation that runs when an answer arrives. *)
Definition resume (origin : Origin) (r : result jsval) (s : State) : State :=
  match origin, r with
  | FromEffect, Ok v => setData v s
  | FromEffect, Throw _ => s
  | FromRun, Ok v => setLoading false (setData v s)
  | FromRun, Throw e => setLoading false (add_alert ("Profile error: " ++ message e) s)
  end.

Definition step (s : State) (e : Ev) : State :=
  match e with
  | Props ds =>
      if strict_eq (prop ds "id") (prop (dataset s) "id")
      then with_dataset ds s
      else effect (with_dataset ds s)
  | RunClick => runProfile s
  | SetTab t => setTab t s
  | Settle k o =>
      match nth_error (inflight s) k with
      | None => s
      | Some p => resume (p_origin p) (settled o) (drop k s)
      end
  end.

Definition run (s : State) (evs : list Ev) : State := fold_left step evs s.

Definition reachable (s : State) : Prop :=
  exists ds evs, s = run (mount ds) evs.

(** The request [p] was issued for dataset [ds]. *)
Definition issued_for (p : Pending) (ds : jsval) : Prop :=
  url (p_req p) = API_BASE ++ profile_path ds.

End ProfilePanel.

(** ** Vocabulary of the properties *)

(** The message [api] throws on a non-success status. *)
Definition status_line (r : Response) : string :=
  string_of_Z (status r) ++ " " ++ statusText r.

(** The world after a handler has run, and the events it added. *)
Definition after {A} (m : M A) (o : Oracle) (w : World) : World := snd (m o w).

(** An identifier as the service assigns it: a non-zero number or a
    non-empty string. *)
Definition identifier (v : jsval) : bool :=
  match v with
  | JNum n => negb (n =? 0)
  | JStr s => negb (s =? "")%string
  | _ => false
  end.

(** A value on which a property can be read: neither [null] nor
    [undefined]. *)
Definition defined (v : jsval) : bool :=
  match v with
  | JUndef | JNull => false
  | _ => true
  end.


Definition upload_request (f : File) : Request :=
  mkRequest (API_BASE ++ "/datasets/upload") (post (FormData "file" f)).

Definition is_upload_post (r : Request) : bool :=
  (url r =? API_BASE ++ "/datasets/upload")%string && (method r =? "POST")%string.

(** Number of POST requests to the upload endpoint in a trace. *)
Definition upload_posts (t : list Event) : nat :=
  length (filter is_upload_post (requests t)).

(** The version ids whose box is ticked. *)
Definition selected_ids (ids : list jsval) (p : VersionsPanelState) : list jsval :=
  filter (VersionsPanel.checked p) ids.

Definition delete_request (ds : jsval) : Request :=
  mkRequest (API_BASE ++ DatasetList.delete_path ds) DatasetList.delete_opts.

(** An event that delivers no data: anything but a successful answer. *)
Definition quiet (e : ProfilePanel.Ev) : bool :=
  match e with
  | ProfilePanel.Settle _ o =>
      match ProfilePanel.settled o with
      | Ok _ => false
      | Throw _ => true
      end
  | _ => true
  end.

(** The request [uploadNewVersion] sends for a dataset and a file. *)
Definition new_version_request (dataset : jsval) (f : File) : Request :=
  mkRequest (API_BASE ++ "/datasets/" ++ to_string (prop dataset "id") ++ "/new-version")
            (post (FormData "file" f)).

Definition versions_request (dataset : jsval) : Request :=
  mkRequest (API_BASE ++ "/datasets/" ++ to_string (prop dataset "id") ++ "/versions")
            default_opts.

(** A value that can stand in child position without React refusing it. *)
Definition renders (v : jsval) : bool :=
  match child v with
  | Ok _ => true
  | Throw _ => false
  end.

(** A sampled violation as the service sends it: [row_index] and
    [column_value] printable, [row_data] a mapping of printable values. *)
Definition well_formed_violation (v : jsval) : bool :=
  defined v
  && renders (prop v "row_index")
  && renders (prop v "column_value")
  && match prop v "row_data" with
     | JObj fs => forallb (fun kv => renders (snd kv)) fs
     | _ => false
     end.

(** The text of a list of sibling nodes. *)
Definition texts (cs : list node) : string := text_of (El "" cs).

(** The text React shows for a value in child position. *)
Definition shown (v : jsval) : string :=
  match child v with
  | Ok c => texts c
  | Throw _ => ""
  end.

(** One cell of a sampled row reads [name: value]. *)
Definition shows_entry (kv : string * jsval) (cell : node) : Prop :=
  text_of cell = fst kv ++ ": " ++ shown (snd kv).

(** One row of the violation panel: a heading with the row index and
    the offending value, over one cell per entry of [row_data], in the
    order [Object.entries] lists them. *)
Definition shows_violation (v : jsval) (row : node) : Prop :=
  exists heading cells entries,
    row = El "div" [heading; El "div" cells]
    /\ text_of heading
       = "Row " ++ shown (prop v "row_index") ++ ": " ++ shown (prop v "column_value")
    /\ object_entries (prop v "row_data") = Ok entries
    /\ length cells = length entries
    /\ Forall2 shows_entry entries cells.

(** The violation panel of a rule result: with a non-empty sample, a
    header that names the total and the sample size, over one row per
    sampled violation, in order; nothing otherwise. *)
Definition shows_sample (r : jsval) (panel : list node) : Prop :=
  match prop r "violation_details" with
  | JArr (v :: vd) =>
      exists header rows,
        panel = [El "div" [header; El "div" rows]]
        /\ text_of header
           = "Violations (" ++ shown (prop r "violations") ++ " total, showing first "
             ++ string_of_Z (Z.of_nat (length (v :: vd))) ++ "):"
        /\ length rows = length (v :: vd)
        /\ Forall2 shows_violation (v :: vd) rows
  | _ => panel = []
  end.

(** The card of a rule result: the line with column, rule type,
    parameters and status, the message, and the violation panel. *)
Definition shows_rule (JSON_stringify : jsval -> string) (r : jsval) (card : node) : Prop :=
  exists line msg panel,
    card = El "div" (line :: msg :: panel)
    /\ text_of line
       = shown (prop r "column") ++ shown (prop r "rule_type")
         ++ (if truthy (prop r "parameters")
             then JSON_stringify (prop r "parameters")
             else shown (prop r "parameters"))
         ++ shown (prop r "status")
    /\ text_of msg = shown (prop r "message")
    /\ shows_sample r panel.

(** A rule result as the service sends it: an object whose [column],
    [rule_type], [status] and [message] are printable and whose sample,
    when there is one, is an array of well-formed violations next to a
    printable total. *)
Definition well_formed_rule (r : jsval) : bool :=
  defined r
  && renders (prop r "column")
  && renders (prop r "rule_type")
  && renders (prop r "status")
  && renders (prop r "message")
  && match prop r "violation_details" with
     | JUndef | JNull | JArr [] => true
     | JArr vd => renders (prop r "violations") && forallb well_formed_violation vd
     | _ => false
     end.

(** The compare button is on screen and can be clicked. *)
Definition compareEnabled (p : VersionsPanelState) : bool :=
  match VersionsPanel.compareButton p with
  | Some d => negb d
  | None => false
  end.

(** The panel with another value of [loading], as [setLoading] leaves
    it. *)
Definition loading_as (b : bool) (p : VersionsPanelState) : VersionsPanelState :=
  {| versions := versions p; comparison := comparison p;
     selectedV1 := selectedV1 p; selectedV2 := selectedV2 p;
     vp_uploading := vp_uploading p; vp_loading := b |}.

(** A selection slot holds [null] or one of the listed version ids. *)
Definition slot (ids : list jsval) (v : jsval) : Prop := v = JNull \/ In v ids.

(** What every reachable selection satisfies: the two slots never hold
    the same id. *)
Definition selection_invariant (ids : list jsval) (p : VersionsPanelState) : Prop :=
  slot ids (selectedV1 p) /\ slot ids (selectedV2 p)
  /\ (selectedV1 p = selectedV2 p -> selectedV1 p = JNull).

Definition ticked (v : jsval) : nat := if truthy v then 1 else 0.

(** *** The gateway contract in the words of the specification

    This decoder follows the words of section 4.1, not the code: on a
    non-success status the gateway first tries to decode the body as a
    structured error object
    [{error, reason, explanation, found_issues, how_to_fix}] and falls
    back to the status line only when that fails.  It is compared with
    [api] below. *)
Module GatewaySpec.

Record StructuredError := {
  se_error : jsval;
  se_reason : jsval;
  se_explanation : jsval;
  se_found_issues : jsval;
  se_how_to_fix : jsval
}.

Definition decode (body : result jsval) : option StructuredError :=
  match body with
  | Ok (JObj fs) =>
      match assoc "error" fs with
      | JUndef => None
      | e => Some {| se_error := e;
                     se_reason := assoc "reason" fs;
                     se_explanation := assoc "explanation" fs;
                     se_found_issues := assoc "found_issues" fs;
                     se_how_to_fix := assoc "how_to_fix" fs |}
      end
  | _ => None
  end.

(** The claim about [api]: the status line is the error only when the
    body could not be decoded. *)
Definition decodes_before_status_line : Prop :=
  forall path opts o w r,
    net o (length (requests (trace w))) (mkRequest (API_BASE ++ path) opts) = Resp r ->
    ok r = false ->
    fst (api path opts o w) = Throw (mkError (status_line r)) ->
    decode (json r) = None.

End GatewaySpec.

(** *** Claims that the code does not meet, as the specification states
    them *)

(** A late answer to a request issued for [d1] leaves the state of the
    panel, now showing [d2], as it is. *)
Definition stale_responses_discarded : Prop :=
  forall (s : ProfilePanel.State) (d1 d2 : jsval) (k : nat)
         (p : ProfilePanel.Pending) (o : Outcome),
    ProfilePanel.reachable s ->
    strict_eq (prop d1 "id") (prop d2 "id") = false ->
    ProfilePanel.dataset s = d2 ->
    nth_error (ProfilePanel.inflight s) k = Some p ->
    ProfilePanel.issued_for p d1 ->
    ProfilePanel.data (ProfilePanel.step s (ProfilePanel.Settle k o)) = ProfilePanel.data s.

(** One call of [upload] with a .csv file posts to the upload endpoint at
    most once. *)
Definition never_reissues_upload : Prop :=
  forall (o : Oracle) (w : World) (f : File),
    endsWith (name f) ".csv" = true ->
    (upload_posts (trace (after (UploadZone.upload App.handleUploaded (Some f)) o w))
     <= upload_posts (trace w) + 1)%nat.

(** For any distinct version ids and every reachable selection: an
    unticked box becomes ticked when fewer than two are, a ticked box
    becomes unticked, with two ticked no third box becomes ticked, and
    the comparison can be started exactly when two boxes are ticked. *)
Definition selection_rules_as_stated : Prop :=
  forall (ids : list jsval) (p : VersionsPanelState) (vid : jsval),
    NoDup ids ->
    VersionsPanel.reachable ids p ->
    In vid ids ->
    (VersionsPanel.checked p vid = false -> (length (selected_ids ids p) < 2)%nat ->
       VersionsPanel.checked (VersionsPanel.toggle vid p) vid = true)
    /\ (VersionsPanel.checked p vid = true ->
          VersionsPanel.checked (VersionsPanel.toggle vid p) vid = false)
    /\ (length (selected_ids ids p) = 2%nat -> VersionsPanel.checked p vid = false ->
          VersionsPanel.checked (VersionsPanel.toggle vid p) vid = false)
    /\ (compareEnabled p = true <-> length (selected_ids ids p) = 2%nat).


(** The body the service sends with a 422: the four diagnostic fields
    under [detail]. *)
Definition structured_detail (e reason : string) (issues : list string)
    (how_to_fix : string) : jsval :=
  JObj [("error", JStr e);
        ("reason", JStr reason);
        ("found_issues", JArr (map JStr issues));
        ("how_to_fix", JStr how_to_fix)].

Definition unprocessable (statusText : string) (detail : jsval) : Response :=
  {| status := 422; statusText := statusText;
     json := Ok (JObj [("detail", detail)]) |}.

(** *** Sample data *)

Module Sample.

Definition csv : File := {| name := "sales.csv" |}.
Definition txt : File := {| name := "notes.txt" |}.

Definition d1 : jsval :=
  JObj [("id", JNum 1); ("name", JStr "sales.csv"); ("version", JNum 1);
        ("total_rows", JNum 10); ("total_columns", JNum 3)].
Definition d2 : jsval :=
  JObj [("id", JNum 2); ("name", JStr "stock.csv"); ("version", JNum 1);
        ("total_rows", JNum 20); ("total_columns", JNum 4)].

Definition profile1 : jsval := JObj [("quality_score", JNum 91); ("issues", JArr [])].

Definition detail : jsval :=
  JObj [("error", JStr "bad header");
        ("reason", JStr "missing id column");
        ("found_issues", JArr [JStr "no 'id' column"]);
        ("how_to_fix", JStr "add an id column")].

Definition ok200 (v : jsval) : Response :=
  {| status := 200; statusText := "OK"; json := Ok v |}.

(** A 422 whose body is [{detail: {...}}]. *)
Definition r422 : Response :=
  {| status := 422; statusText := "Unprocessable Entity";
     json := Ok (JObj [("detail", detail)]) |}.

(** A 422 whose body is the structured error object itself. *)
Definition r422_flat : Response :=
  {| status := 422; statusText := "Unprocessable Entity"; json := Ok detail |}.


Definition always (r : Response) (yes : bool) : Oracle :=
  {| net := fun _ _ => Resp r; confirm := fun _ => yes |}.

Definition w0 : World := {| store := initialStore; trace := [] |}.

(** Two datasets listed, the first one selected. *)
Definition w_listed : World :=
  {| store :=
       with_app (fun a => {| datasets := JArr [d1; d2]; selected := d1;
                             activeTab := activeTab a; sideOpen := sideOpen a |})
                initialStore;
     trace := [] |}.

(** A row whose cells are listed by [Object.entries] in another order
    than the service wrote them: the year columns come first. *)
Definition violation (i v : Z) : jsval :=
  JObj [("row_index", JNum i); ("column_value", JNum v);
        ("row_data", JObj [("city", JStr "Oslo"); ("2024", JNum v); ("2023", JNull)])].

Definition ruleResult : jsval :=
  JObj [("rule_id", JNum 1); ("column", JStr "2024"); ("rule_type", JStr "range");
        ("parameters", JObj [("min", JNum 0); ("max", JNum 100)]);
        ("status", JStr "FAILED"); ("message", JStr "12 values out of range");
        ("violations", JNum 12);
        ("violation_details", JArr [violation 4 130; violation 9 (-2); violation 17 212])].

Definition ruleResult2 : jsval :=
  JObj [("rule_id", JNum 2); ("column", JStr "city"); ("rule_type", JStr "not_null");
        ("parameters", JObj []);
        ("status", JStr "PASSED"); ("message", JStr "no missing values");
        ("violations", JNum 0); ("violation_details", JArr [])].

Definition valResult : jsval :=
  JObj [("overall_status", JStr "FAILED"); ("passed", JNum 3); ("failed", JNum 1);
        ("results", JArr [ruleResult; ruleResult2])].

End Sample.

(** ** Handlers over the state of one panel

    [AIPanel] and [RulesPanel] keep their state to themselves.  Their
    handlers are computations of the same kind as [M], over the state
    [S] of the panel instead of [Store]. *)

Record Scene (S : Type) : Type := {
  panel : S;
  seen : list Event
}.
Arguments panel {S} _.
Arguments seen {S} _.

Definition P (S A : Type) : Type := Oracle -> Scene S -> result A * Scene S.

Definition p_ret {S A} (a : A) : P S A := fun _ w => (Ok a, w).

Definition p_bind {S A B} (m : P S A) (f : A -> P S B) : P S B :=
  fun o w =>
    match m o w with
    | (Ok a, w') => f a o w'
    | (Throw e, w') => (Throw e, w')
    end.

Definition p_try {S A} (m : P S A) (h : Error -> P S A) : P S A :=
  fun o w =>
    match m o w with
    | (Ok a, w') => (Ok a, w')
    | (Throw e, w') => h e o w'
    end.

Definition p_finally {S A} (m : P S A) (f : P S unit) : P S A :=
  fun o w =>
    match m o w with
    | (r, w') =>
        match f o w' with
        | (Ok _, w'') => (r, w'')
        | (Throw e, w'') => (Throw e, w'')
        end
    end.

Declare Scope panel_scope.
Delimit Scope panel_scope with panel.
Notation "x <- m ;; k" := (p_bind m (fun x => k))
  (at level 61, m at next level, right associativity) : panel_scope.
Notation "m ;; k" := (p_bind m (fun _ => k))
  (at level 61, right associativity) : panel_scope.

Definition p_lift {S A} (r : result A) : P S A := fun _ w => (r, w).

Definition p_modify {S} (f : S -> S) : P S unit :=
  fun _ w => (Ok tt, {| panel := f (panel w); seen := seen w |}).

Definition p_read {S} : P S S := fun _ w => (Ok (panel w), w).

Definition p_fetch {S} (req : Request) : P S Response :=
  fun o w =>
    let w' := {| panel := panel w; seen := (seen w ++ [EvFetch req])%list |} in
    match net o (length (requests (seen w))) req with
    | NetworkError e => (Throw e, w')
    | Resp r => (Ok r, w')
    end.

Definition p_alert {S} (text : string) : P S unit :=
  fun _ w => (Ok tt, {| panel := panel w; seen := (seen w ++ [EvAlert text])%list |}).

(** [api] called from a panel. *)
Definition p_api {S} (path : string) (opts : Opts) : P S jsval :=
  (r <- p_fetch (mkRequest (API_BASE ++ path) opts) ;;
   p_lift (api_then r))%panel.

(** The scene after a panel handler has run. *)
Definition p_after {S A} (m : P S A) (o : Oracle) (w : Scene S) : Scene S := snd (m o w).

(** ** [AIPanel] (lines 580-591) *)

Module AIPanel.

Record State := {
  ai_result : jsval;
  ai_loading : bool
}.

Definition initial : State := {| ai_result := JNull; ai_loading := false |}.

Definition setResult (v : jsval) : P State unit :=
  p_modify (fun s => {| ai_result := v; ai_loading := ai_loading s |}).

Definition setLoading (b : bool) : P State unit :=
  p_modify (fun s => {| ai_result := ai_result s; ai_loading := b |}).

Definition analyze_path (dataset : jsval) : string :=
  "/datasets/" ++ to_string (prop dataset "id") ++ "/ai-analyze".

(** Lines 584-589. *)
Definition run (dataset : jsval) : P State unit :=
  (setLoading true ;;
   setResult JNull ;;
   p_finally
     (p_try
        (i <- p_lift (get dataset "id") ;;
         r <- p_api ("/datasets/" ++ to_string i ++ "/ai-analyze") (post NoBody) ;;
         setResult r)
        (fun e => p_alert ("AI error: " ++ message e)))
     (setLoading false))%panel.

(** [const ai = result?.ai_analysis] *)
Definition ai (s : State) : jsval := get_opt (ai_result s) "ai_analysis".

(** The placeholder card is shown when [!result && !loading]. *)
Definition placeholder (s : State) : bool :=
  negb (truthy (ai_result s)) && negb (ai_loading s).

End AIPanel.

(** ** [RulesPanel]: state and handlers (lines 727-780, 787, 811-815, 832-833)

    [JSON.parse] and [JSON.stringify] belong to the platform; the
    handlers take them as arguments. *)

Module RulesHandlers.

Record Form := {
  column_name : string;
  rule_type : string;
  parameters : jsval
}.

Record State := {
  rules : jsval;
  form : Form;
  paramStr : string;
  valResult : jsval;
  loading : bool
}.

(** [{"min":0,"max":100}] *)
Definition range_template : string :=
  "{" ++ dquote ++ "min" ++ dquote ++ ":0," ++ dquote ++ "max" ++ dquote ++ ":100}".

Definition initialForm : Form :=
  {| column_name := ""; rule_type := "range"; parameters := JObj [] |}.

Definition initial : State :=
  {| rules := JArr []; form := initialForm; paramStr := range_template;
     valResult := JNull; loading := false |}.

(** [RULE_TEMPLATES[value] ?? "{}"] for the values the select offers;
    any other value gives [{}]. *)
Definition rule_template (value : string) : string :=
  if (value =? "range")%string then range_template
  else if (value =? "not_null")%string then "{}"
  else if (value =? "unique")%string then "{}"
  else if (value =? "regex")%string then
    "{" ++ dquote ++ "pattern" ++ dquote ++ ":" ++ dquote
    ++ "^[\\w.-]+@[\\w.-]+\\.\\w+$" ++ dquote ++ "}"
  else "{}".

Definition setRules (v : jsval) : P State unit :=
  p_modify (fun s => {| rules := v; form := form s; paramStr := paramStr s;
                        valResult := valResult s; loading := loading s |}).

Definition setForm (f : Form) : P State unit :=
  p_modify (fun s => {| rules := rules s; form := f; paramStr := paramStr s;
                        valResult := valResult s; loading := loading s |}).

Definition setParamStr (v : string) : P State unit :=
  p_modify (fun s => {| rules := rules s; form := form s; paramStr := v;
                        valResult := valResult s; loading := loading s |}).

Definition setValResult (v : jsval) : P State unit :=
  p_modify (fun s => {| rules := rules s; form := form s; paramStr := paramStr s;
                        valResult := v; loading := loading s |}).

Definition setLoading (b : bool) : P State unit :=
  p_modify (fun s => {| rules := rules s; form := form s; paramStr := paramStr s;
                        valResult := valResult s; loading := b |}).

Definition rules_path (dataset : jsval) : string :=
  "/datasets/" ++ to_string (prop dataset "id") ++ "/rules".

(** Lines 734-739. *)
Definition loadRules (dataset : jsval) : P State unit :=
  (p_try
     (i <- p_lift (get dataset "id") ;;
      r <- p_api ("/datasets/" ++ to_string i ++ "/rules") default_opts ;;
      rs <- p_lift (get r "rules") ;;
      setRules (js_nullish rs (JArr [])))
     (fun _ => p_ret tt))%panel.

(** The effect of line 741. *)
Definition effect (dataset : jsval) : P State unit :=
  (loadRules dataset ;; setValResult JNull)%panel.

(** [{ ...form, parameters: params }] *)
Definition rule_json (f : Form) (params : jsval) : jsval :=
  JObj [("column_name", JStr (column_name f));
        ("rule_type", JStr (rule_type f));
        ("parameters", params)].

(** The options of the POST in [addRule]; [JsonText] is a body sent with
    the header [Content-Type: application/json]. *)
Definition add_opts (text : string) : Opts :=
  {| o_method := "POST"; o_body := JsonText text |}.

(** Lines 743-758. *)
Definition addRule (JSON_parse : string -> result jsval)
    (JSON_stringify : jsval -> string) (dataset : jsval) : P State unit :=
  (s <- p_read ;;
   match JSON_parse (paramStr s) with
   | Throw _ => p_alert "Parameters must be valid JSON"
   | Ok params =>
       p_try
         (i <- p_lift (get dataset "id") ;;
          p_api ("/datasets/" ++ to_string i ++ "/rules")
                (add_opts (JSON_stringify (rule_json (form s) params))) ;;
          loadRules dataset ;;
          setForm initialForm ;;
          setParamStr range_template)
         (fun e => p_alert ("Add rule error: " ++ message e))
   end)%panel.

Definition delete_opts : Opts := {| o_method := "DELETE"; o_body := NoBody |}.

(** Lines 760-765. *)
Definition deleteRule (dataset ruleId : jsval) : P State unit :=
  (p_try
     (i <- p_lift (get dataset "id") ;;
      p_api ("/datasets/" ++ to_string i ++ "/rules/" ++ to_string ruleId) delete_opts ;;
      loadRules dataset)
     (fun e => p_alert ("Delete error: " ++ message e)))%panel.

(** Lines 767-772. *)
Definition validate (dataset : jsval) : P State unit :=
  (setLoading true ;;
   setValResult JNull ;;
   p_finally
     (p_try
        (i <- p_lift (get dataset "id") ;;
         r <- p_api ("/datasets/" ++ to_string i ++ "/validate") (post NoBody) ;;
         setValResult r)
        (fun e => p_alert ("Validation error: " ++ message e)))
     (setLoading false))%panel.

(** [disabled={loading || rules.length===0}] (line 787). *)
Definition validate_disabled (s : State) : bool :=
  loading s || strict_eq (prop (rules s) "length") (JNum 0).

(** A click on Run Validation. *)
Definition clickValidate (dataset : jsval) : P State unit :=
  fun o w => if validate_disabled (panel w) then (Ok tt, w) else validate dataset o w.

(** [disabled={!form.column_name}] (line 833). *)
Definition add_disabled (s : State) : bool :=
  negb (truthy (JStr (column_name (form s)))).

(** A click on + Add. *)
Definition clickAdd (JSON_parse : string -> result jsval)
    (JSON_stringify : jsval -> string) (dataset : jsval) : P State unit :=
  fun o w =>
    if add_disabled (panel w) then (Ok tt, w)
    else addRule JSON_parse JSON_stringify dataset o w.

(** The inputs of the form (lines 801-802, 811-815, 827). *)
Definition changeColumn (value : string) : P State unit :=
  (s <- p_read ;;
   setForm {| column_name := value; rule_type := rule_type (form s);
              parameters := parameters (form s) |})%panel.

Definition changeRuleType (value : string) : P State unit :=
  (s <- p_read ;;
   setForm {| column_name := column_name (form s); rule_type := value;
              parameters := parameters (form s) |} ;;
   setParamStr (rule_template value))%panel.

(** What the user can do with the panel. *)
Inductive Action : Type :=
| Mount
| ChangeColumn (value : string)
| ChangeRuleType (value : string)
| ChangeParams (value : string)
| ClickAdd
| ClickDelete (ruleId : jsval)
| ClickValidate.

Definition perform (JSON_parse : string -> result jsval)
    (JSON_stringify : jsval -> string) (dataset : jsval) (a : Action) : P State unit :=
  match a with
  | Mount => effect dataset
  | ChangeColumn v => changeColumn v
  | ChangeRuleType v => changeRuleType v
  | ChangeParams v => setParamStr v
  | ClickAdd => clickAdd JSON_parse JSON_stringify dataset
  | ClickDelete i => deleteRule dataset i
  | ClickValidate => clickValidate dataset
  end.

(** The scene after a series of actions, each run to completion. *)
Fixpoint session (JSON_parse : string -> result jsval)
    (JSON_stringify : jsval -> string) (dataset : jsval) (acts : list Action)
    (o : Oracle) (w : Scene State) : Scene State :=
  match acts with
  | [] => w
  | a :: rest =>
      session JSON_parse JSON_stringify dataset rest o
        (p_after (perform JSON_parse JSON_stringify dataset a) o w)
  end.

End RulesHandlers.

(** ** Vocabulary of the further properties *)

(** The request in flight was sent by [runProfile]. *)
Definition is_run (p : ProfilePanel.Pending) : bool :=
  match ProfilePanel.p_origin p with
  | ProfilePanel.FromRun => true
  | ProfilePanel.FromEffect => false
  end.

Definition runs_in_flight (s : ProfilePanel.State) : nat :=
  length (filter is_run (ProfilePanel.inflight s)).

Definition compare_request (a b : jsval) : Request :=
  mkRequest (API_BASE ++ "/datasets/" ++ to_string a ++ "/compare/" ++ to_string b)
            default_opts.

Definition datasets_request : Request :=
  mkRequest (API_BASE ++ "/datasets") default_opts.

Definition analyze_request (dataset : jsval) : Request :=
  mkRequest (API_BASE ++ AIPanel.analyze_path dataset) (post NoBody).

Definition rules_request (dataset : jsval) : Request :=
  mkRequest (API_BASE ++ RulesHandlers.rules_path dataset) default_opts.

Definition add_rule_request (dataset : jsval) (text : string) : Request :=
  mkRequest (API_BASE ++ RulesHandlers.rules_path dataset) (RulesHandlers.add_opts text).

Definition delete_rule_request (dataset ruleId : jsval) : Request :=
  mkRequest (API_BASE ++ "/datasets/" ++ to_string (prop dataset "id") ++ "/rules/"
             ++ to_string ruleId)
            RulesHandlers.delete_opts.

Definition validate_request (dataset : jsval) : Request :=
  mkRequest (API_BASE ++ "/datasets/" ++ to_string (prop dataset "id") ++ "/validate")
            (post NoBody).

(** A stand-in for [JSON.parse] that knows two texts, and one for
    [JSON.stringify], used to run the rule handlers on examples. *)
Definition sample_parse (text : string) : result jsval :=
  if (text =? RulesHandlers.range_template)%string
  then Ok (JObj [("min", JNum 0); ("max", JNum 100)])
  else if (text =? "{}")%string then Ok (JObj [])
  else Throw (mkError "Unexpected token").

Definition sample_stringify (v : jsval) : string := to_string v.

(** A stand-in for [JSON.stringify] that knows the parameter objects of
    the sample rule results. *)
Definition sample_stringify_parameters (v : jsval) : string :=
  match v with
  | JObj [] => "{}"
  | _ => RulesHandlers.range_template
  end.

Definition sample_rules_scene : Scene RulesHandlers.State :=
  {| panel := {| RulesHandlers.rules := JArr [JObj [("id", JNum 5)]];
                 RulesHandlers.form := {| RulesHandlers.column_name := "age";
                                          RulesHandlers.rule_type := "not_null";
                                          RulesHandlers.parameters := JObj [] |};
                 RulesHandlers.paramStr := "{}";
                 RulesHandlers.valResult := JObj [("overall_status", JStr "PASSED")];
                 RulesHandlers.loading := false |};
     seen := [] |}.

(** The message of the alert a failed delete raises (lines 282-285). *)
Definition delete_failure_text (e : Error) : string :=
  if includes (message e) "version"
  then "Cannot delete: child versions exist. Delete them first."
  else "Delete failed: " ++ message e.

(** * Properties *)

(** ** Strings *)

Lemma substring_all (s : string) : substring 0 (String.length s) s = s.
Proof. induction s; cbn; congruence. Qed.

Lemma substring_app_skip (p q : string) (m : nat) :
  substring (String.length p) m (p ++ q) = substring 0 m q.
Proof. induction p; cbn; auto. Qed.

Lemma string_length_app (p q : string) :
  String.length (p ++ q) = (String.length p + String.length q)%nat.
Proof. induction p; cbn; auto. Qed.

Lemma substring_split (s : string) (k : nat) :
  (k <= String.length s)%nat ->
  s = substring 0 k s ++ substring k (String.length s - k) s.
Proof.
  revert k; induction s as [|c s IH]; intros k Hk.
  - destruct k; cbn in *; auto; lia.
  - destruct k; cbn [substring String.length].
    + cbn. now rewrite substring_all.
    + cbn in Hk. cbn. f_equal. apply IH. lia.
Qed.

(** [endsWith] is the suffix test. *)
Lemma endsWith_spec (s suffix : string) :
  endsWith s suffix = true <-> exists p, s = p ++ suffix.
Proof.
  unfold endsWith. rewrite andb_true_iff, Nat.leb_le, String.eqb_eq. split.
  - intros [Hle Hsub]. exists (substring 0 (String.length s - String.length suffix) s).
    pose proof (substring_split s (String.length s - String.length suffix)) as H.
    replace (String.length s - (String.length s - String.length suffix))%nat
      with (String.length suffix) in H by lia.
    rewrite Hsub in H. apply H. lia.
  - intros [p ->]. rewrite string_length_app. split; [lia|].
    replace (String.length p + String.length suffix - String.length suffix)%nat
      with (String.length p) by lia.
    rewrite substring_app_skip. apply substring_all.
Qed.

(** ** Identifiers *)

Lemma identifier_truthy (v : jsval) : identifier v = true -> truthy v = true.
Proof. destruct v; cbn; congruence. Qed.

Lemma identifier_defined (v : jsval) : identifier v = true -> defined v = true.
Proof. destruct v; cbn; congruence. Qed.

Lemma strict_eq_refl (v : jsval) : identifier v = true -> strict_eq v v = true.
Proof.
  destruct v; cbn; try congruence; intros _.
  - apply Z.eqb_refl.
  - apply String.eqb_refl.
Qed.

Lemma strict_eq_eq (a b : jsval) :
  identifier a = true -> strict_eq a b = true -> a = b.
Proof.
  destruct a, b; cbn; try congruence; intros _ H.
  - apply Z.eqb_eq in H. congruence.
  - apply String.eqb_eq in H. congruence.
Qed.

Lemma strict_eq_sym (a b : jsval) : strict_eq a b = strict_eq b a.
Proof.
  destruct a, b; cbn; auto.
  - destruct b, b0; auto.
  - apply Z.eqb_sym.
  - apply String.eqb_sym.
Qed.

Lemma strict_eq_iff (a b : jsval) :
  identifier a = true -> (strict_eq a b = true <-> a = b).
Proof.
  intros Ha; split.
  - now apply strict_eq_eq.
  - intros <-. now apply strict_eq_refl.
Qed.

Lemma strict_eq_null_identifier (v : jsval) :
  identifier v = true -> strict_eq JNull v = false.
Proof. destruct v; cbn; congruence. Qed.

(** ** [api] *)

Lemma api_fetches_once (path : string) (opts : Opts) (o : Oracle) (w : World) :
  trace (after (api path opts) o w)
  = (trace w ++ [EvFetch (mkRequest (API_BASE ++ path) opts)])%list
  /\ store (after (api path opts) o w) = store w.
Proof.
  unfold after, api, bind, fetch, lift.
  destruct (net o _ _); cbn; auto.
Qed.

Lemma api_resolves (path : string) (opts : Opts) (o : Oracle) (w : World) (r : Response) (v : jsval) :
  net o (length (requests (trace w))) (mkRequest (API_BASE ++ path) opts) = Resp r ->
  ok r = true ->
  json r = Ok v ->
  api path opts o w
  = (Ok v, {| store := store w;
              trace := (trace w ++ [EvFetch (mkRequest (API_BASE ++ path) opts)])%list |}).
Proof.
  intros Hnet Hok Hjson. unfold api, bind, fetch, lift, api_then.
  rewrite Hnet, Hok. cbn. now rewrite Hjson.
Qed.

(** C2, as the code has it: on every response with a non-success status
    [api] rejects with an error whose message is the status code, a space
    and the status text; the body is not read, whatever it holds, and
    one request has been issued. *)
Theorem api_rejects_with_status_line
    (path : string) (opts : Opts) (o : Oracle) (w : World) (r : Response) :
  net o (length (requests (trace w))) (mkRequest (API_BASE ++ path) opts) = Resp r ->
  ok r = false ->
  api path opts o w
  = (Throw (mkError (string_of_Z (status r) ++ " " ++ statusText r)),
     {| store := store w;
        trace := (trace w ++ [EvFetch (mkRequest (API_BASE ++ path) opts)])%list |}).
Proof.
  intros Hnet Hok. unfold api, bind, fetch, lift, api_then.
  rewrite Hnet, Hok. reflexivity.
Qed.

Lemma api_rejects_with_status_line_witness :
  ok Sample.r422_flat = false
  /\ api "/datasets/upload" (post (FormData "file" Sample.csv))
         (Sample.always Sample.r422_flat true) Sample.w0
     = (Throw (mkError "422 Unprocessable Entity"),
        {| store := initialStore;
           trace := [EvFetch (upload_request Sample.csv)] |}).
Proof.
  split; [reflexivity|].
  exact (api_rejects_with_status_line "/datasets/upload" (post (FormData "file" Sample.csv))
           (Sample.always Sample.r422_flat true) Sample.w0 Sample.r422_flat
           eq_refl eq_refl).
Defined.

(** C2, as stated, fails: a 422 whose body is a well-formed structured
    error object still yields the bare status line. *)
Lemma api_does_not_decode :
  fst (api "/datasets/upload" (post (FormData "file" Sample.csv))
           (Sample.always Sample.r422_flat true) Sample.w0)
  = Throw (mkError "422 Unprocessable Entity")
  /\ GatewaySpec.decode (json Sample.r422_flat) <> None
  /\ ~ GatewaySpec.decodes_before_status_line.
Proof.
  split; [reflexivity|]. split; [discriminate|].
  intros H.
  specialize (H "/datasets/upload" (post (FormData "file" Sample.csv))
                (Sample.always Sample.r422_flat true) Sample.w0 Sample.r422_flat
                eq_refl eq_refl eq_refl).
  discriminate H.
Qed.

(** ** Local validation of the file name *)

Lemma requests_app (t u : list Event) :
  requests (t ++ u) = (requests t ++ requests u)%list.
Proof.
  induction t as [|e t IH]; cbn; auto.
  destruct e; cbn; now rewrite IH.
Qed.

Lemma not_csv_spec (file : option File) :
  UploadZone.not_csv file = true
  <-> forall f, file = Some f -> ~ exists p, name f = p ++ ".csv".
Proof.
  destruct file as [f|]; cbn.
  - rewrite negb_true_iff, <- not_true_iff_false, endsWith_spec. split.
    + intros H g [= <-]. exact H.
    + intros H. now apply H.
  - split; [discriminate | reflexivity].
Qed.

(** C5: a file whose name does not end in [.csv] (or no file at all) is
    refused on the spot by both upload operations: the root upload sets
    the message "Only CSV files are supported.", the new-version upload
    raises the alert "Only CSV files allowed", and neither issues any
    request. *)
Theorem non_csv_is_rejected_locally
    (file : option File) (dataset : jsval) (o : Oracle) (w : World) :
  (forall f, file = Some f -> ~ exists p, name f = p ++ ".csv") ->
  let w1 := after (UploadZone.upload App.handleUploaded file) o w in
  let w2 := after (VersionsPanel.uploadNewVersion dataset file) o w in
  msg (uploadZone (store w1))
  = Some {| msg_ok := false; text := JStr "Only CSV files are supported.";
            details := JUndef |}
  /\ trace w1 = trace w
  /\ trace w2 = (trace w ++ [EvAlert "Only CSV files allowed"])%list
  /\ store w2 = store w
  /\ requests (trace w1) = requests (trace w)
  /\ requests (trace w2) = requests (trace w).
Proof.
  intros H. apply not_csv_spec in H.
  unfold after, UploadZone.upload, VersionsPanel.uploadNewVersion.
  rewrite H. cbn. rewrite requests_app. cbn. rewrite app_nil_r.
  repeat split; reflexivity.
Qed.

Lemma non_csv_is_rejected_locally_witness :
  msg (uploadZone (store (after (UploadZone.upload App.handleUploaded (Some Sample.txt))
                                (Sample.always Sample.r422 true) Sample.w0)))
  = Some {| msg_ok := false; text := JStr "Only CSV files are supported.";
            details := JUndef |}
  /\ requests (trace (after (VersionsPanel.uploadNewVersion Sample.d1 (Some Sample.txt))
                            (Sample.always Sample.r422 true) Sample.w0)) = [].
Proof.
  assert (H : forall f, Some Sample.txt = Some f -> ~ exists p, name f = p ++ ".csv").
  { apply not_csv_spec. reflexivity. }
  pose proof (non_csv_is_rejected_locally (Some Sample.txt) Sample.d1
                (Sample.always Sample.r422 true) Sample.w0 H) as T.
  cbv zeta in T. split; [apply T | apply T].
Defined.

(** ** Running a handler

    [run_handler] unfolds the monad and the handlers; [split_cases]
    follows every answer the environment can give. *)

Ltac run_handler :=
  cbv beta iota zeta delta
    [after finally try_catch bind api fetch lift alert emit window_confirm
     modify read ret throw
     UploadZone.upload UploadZone.readDetail UploadZone.setUploading UploadZone.setMsg
     App.handleUploaded App.loadDatasets App.setDatasets App.setSelected
     App.setActiveTab App.handleDelete App.onSelect
     DatasetList.handleDelete DatasetList.setDeleting
     VersionsPanel.uploadNewVersion VersionsPanel.loadVersions
     VersionsPanel.setVersions VersionsPanel.setUploading VersionsPanel.compare
     VersionsPanel.setLoading VersionsPanel.setComparison].

Ltac split_cases :=
  repeat (cbn [store trace fst snd];
          match goal with
          | |- context [net ?o ?n ?r] => destruct (net o n r) eqn:?
          | |- context [api_then ?r] => destruct (api_then r) eqn:?
          | |- context [json ?r] => destruct (json r) eqn:?
          | |- context [get ?a ?k] => destruct (get a k) eqn:?
          | |- context [array_filter ?f ?a] => destruct (array_filter f a) eqn:?
          | |- context [if ?b then _ else _] => destruct b eqn:?
          end);
  cbn [store trace fst snd].

Lemma upload_posts_app (t u : list Event) :
  upload_posts (t ++ u) = (upload_posts t + upload_posts u)%nat.
Proof.
  unfold upload_posts. now rewrite requests_app, filter_app, length_app.
Qed.

Lemma upload_posts_one (f : File) : upload_posts [EvFetch (upload_request f)] = 1%nat.
Proof. reflexivity. Qed.

Lemma upload_posts_datasets :
  upload_posts [EvFetch (mkRequest (API_BASE ++ "/datasets") default_opts)] = 0%nat.
Proof. reflexivity. Qed.

Lemma js_or_nonempty (s : string) (v : jsval) : s <> "" -> js_or (JStr s) v = JStr s.
Proof.
  intros H. unfold js_or. cbn. now destruct (String.eqb_spec s "").
Qed.

Lemma get_defined (v : jsval) (k : string) :
  defined v = true -> get v k = Ok (prop v k).
Proof. destruct v; cbn; congruence. Qed.

Lemma get_throws (v : jsval) (k : string) (e : Error) :
  get v k = Throw e -> defined v = false.
Proof. destruct v; cbn; congruence. Qed.

(** ** Upload: number of requests *)

Lemma csv_guard (f : File) :
  endsWith (name f) ".csv" = true -> UploadZone.not_csv (Some f) = false.
Proof. intros H. cbn. now rewrite H. Qed.

(** C4, as the code has it: one call of [upload] with a .csv file posts
    to the upload endpoint once or twice, never more.  It posts once when
    the first answer is a success carrying a dataset, and exactly twice
    when the first request fails (no answer, or a non-success status):
    the catch block posts the same form again to read the error body,
    and the call ends with a failure message. *)
Theorem upload_posts_once_or_twice (o : Oracle) (w : World) (f : File) :
  endsWith (name f) ".csv" = true ->
  let w' := after (UploadZone.upload App.handleUploaded (Some f)) o w in
  let first := net o (length (requests (trace w))) (upload_request f) in
  (upload_posts (trace w) + 1 <= upload_posts (trace w') <= upload_posts (trace w) + 2)%nat
  /\ (forall r ds, first = Resp r -> ok r = true -> json r = Ok ds -> defined ds = true ->
        upload_posts (trace w') = (upload_posts (trace w) + 1)%nat)
  /\ ((exists e, first = NetworkError e) \/ (exists r, first = Resp r /\ ok r = false) ->
        upload_posts (trace w') = (upload_posts (trace w) + 2)%nat
        /\ exists m, msg (uploadZone (store w')) = Some m /\ msg_ok m = false).
Proof.
  intros Hcsv w' first. subst w' first. destruct w as [st tr].
  unfold UploadZone.upload. rewrite (csv_guard f Hcsv).
  run_handler. fold (upload_request f). cbn [store trace fst snd].
  split; [|split].
  - split; split_cases;
      rewrite ?upload_posts_app, ?upload_posts_one, ?upload_posts_datasets; lia.
  - intros r ds Hnet Hok Hjson Hdef. rewrite Hnet. unfold api_then. rewrite Hok, Hjson.
    cbn [negb fst snd store trace]. rewrite !(get_defined ds) by exact Hdef.
    split_cases;
      rewrite ?upload_posts_app, ?upload_posts_one, ?upload_posts_datasets; lia.
  - intros [[e Hnet] | [r [Hnet Hok]]]; rewrite Hnet;
      [|replace (api_then r) with (@Throw jsval (mkError (status_line r)))
          by (unfold api_then; now rewrite Hok)];
      split_cases;
      (split;
       [rewrite ?upload_posts_app, ?upload_posts_one, ?upload_posts_datasets; lia
       |eexists; split; reflexivity]).
Qed.

Lemma upload_posts_once_or_twice_witness :
  endsWith (name Sample.csv) ".csv" = true
  /\ upload_posts (trace (after (UploadZone.upload App.handleUploaded (Some Sample.csv))
                                (Sample.always (Sample.ok200 Sample.d1) true) Sample.w0))
     = 1%nat
  /\ upload_posts (trace (after (UploadZone.upload App.handleUploaded (Some Sample.csv))
                                (Sample.always Sample.r422 true) Sample.w0))
     = 2%nat.
Proof.
  split; [reflexivity|]. split.
  - pose proof (upload_posts_once_or_twice (Sample.always (Sample.ok200 Sample.d1) true)
                  Sample.w0 Sample.csv eq_refl) as T.
    cbv zeta in T. destruct T as (_ & T & _).
    exact (T (Sample.ok200 Sample.d1) Sample.d1 eq_refl eq_refl eq_refl eq_refl).
  - pose proof (upload_posts_once_or_twice (Sample.always Sample.r422 true)
                  Sample.w0 Sample.csv eq_refl) as T.
    cbv zeta in T. destruct T as (_ & _ & T).
    exact (proj1 (T (or_intror (ex_intro _ Sample.r422 (conj eq_refl eq_refl))))).
Defined.

(** C4, as stated, fails: when the service answers 422 the upload is
    posted a second time. *)
Lemma failed_upload_is_posted_again :
  requests (trace (after (UploadZone.upload App.handleUploaded (Some Sample.csv))
                         (Sample.always Sample.r422 true) Sample.w0))
  = [upload_request Sample.csv; upload_request Sample.csv]
  /\ ~ never_reissues_upload.
Proof.
  split; [reflexivity|].
  intros H.
  specialize (H (Sample.always Sample.r422 true) Sample.w0 Sample.csv eq_refl).
  vm_compute in H. lia.
Qed.

(** ** Upload: the structured diagnostic *)

Lemma render_issues_strings (issues : list string) :
  map_result UploadZone.render_issue (map JStr issues)
  = Ok (map (fun i => El "p" [Text "• "; Text i]) issues).
Proof.
  induction issues as [|i rest IH]; cbn; [reflexivity|].
  now rewrite IH.
Qed.

Lemma truthy_nonempty (s : string) : s <> "" -> truthy (JStr s) = true.
Proof. intros H. cbn. now destruct (String.eqb_spec s ""). Qed.

(** What the message block shows for a structured diagnostic: one element
    per field. *)
Lemma render_structured_detail (e reason how_to_fix : string) (issues : list string) :
  e <> "" -> reason <> "" -> issues <> [] -> how_to_fix <> "" ->
  UploadZone.render_msg
    (Some {| msg_ok := false; text := JStr e;
             details := structured_detail e reason issues how_to_fix |})
  = Ok [El "div"
          [El "p" [Text "✗"; Text " "; Text e];
           El "div"
             [El "p" [Text "⚠ "; Text reason];
              El "div" (El "p" [Text "Found issues:"]
                        :: map (fun i => El "p" [Text "• "; Text i]) issues);
              El "p" [Text "💡 "; Text how_to_fix]]]].
Proof.
  intros He Hr Hi Hf.
  assert (Hlen : js_gt0 (JNum (Z.of_nat (length (map JStr issues)))) = true).
  { destruct issues; [congruence|]. cbn [length map js_gt0]. apply Z.ltb_lt. lia. }
  unfold UploadZone.render_msg, UploadZone.render_details,
    UploadZone.render_found_issues, and_then.
  cbn -[truthy js_gt0 map_result].
  rewrite (truthy_nonempty _ Hr), (truthy_nonempty _ Hf), Hlen, render_issues_strings.
  reflexivity.
Qed.

(** C3: when the service answers the upload of a .csv file with HTTP 422
    and the body [{detail: {error, reason, found_issues, how_to_fix}}],
    the upload ends with a failure message that keeps the four fields
    apart: [text] is the error, [details] is the object as received, each
    field can be read from it on its own, and the message block renders
    one element per field. *)
Theorem upload_422_exposes_each_field
    (f : File) (o : Oracle) (w : World)
    (statusText e reason how_to_fix : string) (issues : list string) :
  endsWith (name f) ".csv" = true ->
  (forall n, net o n (upload_request f)
             = Resp (unprocessable statusText
                       (structured_detail e reason issues how_to_fix))) ->
  e <> "" -> reason <> "" -> issues <> [] -> how_to_fix <> "" ->
  exists m,
    msg (uploadZone (store (after (UploadZone.upload App.handleUploaded (Some f)) o w)))
    = Some m
    /\ msg_ok m = false
    /\ text m = JStr e
    /\ prop (details m) "error" = JStr e
    /\ prop (details m) "reason" = JStr reason
    /\ prop (details m) "found_issues" = JArr (map JStr issues)
    /\ prop (details m) "how_to_fix" = JStr how_to_fix
    /\ UploadZone.render_msg (Some m)
       = Ok [El "div"
               [El "p" [Text "✗"; Text " "; Text e];
                El "div"
                  [El "p" [Text "⚠ "; Text reason];
                   El "div" (El "p" [Text "Found issues:"]
                             :: map (fun i => El "p" [Text "• "; Text i]) issues);
                   El "p" [Text "💡 "; Text how_to_fix]]]].
Proof.
  intros Hcsv Hnet He Hr Hi Hf.
  exists {| msg_ok := false; text := JStr e;
            details := structured_detail e reason issues how_to_fix |}.
  split.
  - destruct w as [st tr].
    unfold UploadZone.upload. rewrite (csv_guard f Hcsv).
    run_handler. fold (upload_request f). cbn [store trace fst snd].
    rewrite Hnet. cbn -[upload_request structured_detail]. rewrite Hnet.
    cbn -[structured_detail js_or]. unfold structured_detail at 1 2 3.
    cbn -[structured_detail js_or]. now rewrite js_or_nonempty.
  - repeat split; try reflexivity.
    now apply render_structured_detail.
Qed.

Lemma upload_422_exposes_each_field_witness :
  exists m,
    msg (uploadZone (store (after (UploadZone.upload App.handleUploaded (Some Sample.csv))
                                  (Sample.always Sample.r422 true) Sample.w0)))
    = Some m
    /\ msg_ok m = false
    /\ text m = JStr "bad header"
    /\ prop (details m) "error" = JStr "bad header"
    /\ prop (details m) "reason" = JStr "missing id column"
    /\ prop (details m) "found_issues" = JArr [JStr "no 'id' column"]
    /\ prop (details m) "how_to_fix" = JStr "add an id column"
    /\ UploadZone.render_msg (Some m)
       = Ok [El "div"
               [El "p" [Text "✗"; Text " "; Text "bad header"];
                El "div"
                  [El "p" [Text "⚠ "; Text "missing id column"];
                   El "div" [El "p" [Text "Found issues:"];
                             El "p" [Text "• "; Text "no 'id' column"]];
                   El "p" [Text "💡 "; Text "add an id column"]]]].
Proof.
  apply (upload_422_exposes_each_field Sample.csv (Sample.always Sample.r422 true)
           Sample.w0 "Unprocessable Entity" "bad header" "missing id column"
           "add an id column" ["no 'id' column"]);
    try reflexivity; discriminate.
Defined.

(** ** The version selection pair *)

Import VersionsPanel.

Section Selection.
Variable ids : list jsval.
Hypothesis ids_nodup : NoDup ids.
Hypothesis ids_identifiers : Forall (fun v => identifier v = true) ids.

Lemma ids_identifier (v : jsval) : In v ids -> identifier v = true.
Proof. intros H. rewrite Forall_forall in ids_identifiers. now apply ids_identifiers. Qed.

Lemma slot_truthy (v : jsval) : slot ids v -> (truthy v = true <-> In v ids).
Proof.
  intros [-> | H]; split; intros H'; try discriminate.
  - apply ids_identifier in H'. discriminate.
  - exact H.
  - now apply identifier_truthy, ids_identifier.
Qed.

Lemma slot_eq (v vid : jsval) : slot ids v -> In vid ids -> (strict_eq v vid = true <-> v = vid).
Proof.
  intros Hs Hv. rewrite strict_eq_sym. rewrite strict_eq_iff by now apply ids_identifier.
  split; congruence.
Qed.

Lemma toggle_invariant (p : VersionsPanelState) (vid : jsval) :
  selection_invariant ids p -> In vid ids -> selection_invariant ids (toggle vid p).
Proof.
  intros (H1 & H2 & H3) Hv.
  pose proof (ids_identifier vid Hv) as Hid.
  unfold toggle, disabled, checked, onChange.
  destruct (truthy (selectedV1 p)) eqn:T1, (truthy (selectedV2 p)) eqn:T2,
           (strict_eq (selectedV1 p) vid) eqn:E1, (strict_eq (selectedV2 p) vid) eqn:E2;
    cbn [negb andb orb];
    unfold selection_invariant, slot; cbn [selectedV1 selectedV2 setSelectedV1 setSelectedV2];
    try (apply (slot_eq _ _ H1 Hv) in E1); try (apply (slot_eq _ _ H2 Hv) in E2);
    repeat split; auto; try (intros; congruence).
  all: try (intros <-; destruct vid; discriminate).
  all: try (intros ->; destruct vid; discriminate).
  - intros Heq. rewrite Heq, strict_eq_refl in E1 by assumption. discriminate.
  - intros Heq. rewrite <- Heq, strict_eq_refl in E2 by assumption. discriminate.
  - intros Heq. rewrite <- Heq, strict_eq_refl in E2 by assumption. discriminate.
Qed.

Lemma reachable_invariant (p : VersionsPanelState) :
  reachable ids p -> selection_invariant ids p.
Proof.
  induction 1 as [p H1 H2 | p vid _ IH Hv].
  - unfold selection_invariant, slot. rewrite H1, H2. auto.
  - now apply toggle_invariant.
Qed.

(** Counting ticked boxes. *)
Lemma count_null (l : list jsval) :
  Forall (fun v => identifier v = true) l ->
  filter (strict_eq JNull) l = [].
Proof.
  induction 1 as [|v l Hv _ IH]; cbn [filter]; [reflexivity|].
  now rewrite (strict_eq_null_identifier v Hv).
Qed.

Lemma count_absent (a : jsval) (l : list jsval) :
  identifier a = true -> ~ In a l -> filter (strict_eq a) l = [].
Proof.
  intros Ha. induction l as [|v l IH]; cbn [filter In]; [reflexivity|]. intros Hn.
  destruct (strict_eq a v) eqn:E.
  - apply strict_eq_eq in E; [|assumption]. subst. tauto.
  - apply IH. tauto.
Qed.

Lemma count_present (a : jsval) (l : list jsval) :
  identifier a = true -> NoDup l -> In a l -> filter (strict_eq a) l = [a].
Proof.
  intros Ha. induction 1 as [|v l Hnin Hnd IH]; cbn [filter In]; [tauto|]. intros [-> | Hin].
  - rewrite (strict_eq_refl a Ha). now rewrite count_absent.
  - destruct (strict_eq a v) eqn:E.
    + apply strict_eq_eq in E; [|assumption]. subst. tauto.
    + now apply IH.
Qed.

Lemma filter_or_length {A} (f g : A -> bool) (l : list A) :
  (forall x, In x l -> f x && g x = false) ->
  length (filter (fun x => f x || g x) l)
  = (length (filter f l) + length (filter g l))%nat.
Proof.
  induction l as [|x l IH]; cbn [filter]; [reflexivity|]. intros H.
  assert (Hx := H x (or_introl eq_refl)).
  assert (IH' := IH (fun y Hy => H y (or_intror Hy))).
  destruct (f x), (g x); cbn in *; try discriminate; lia.
Qed.

Lemma slot_count (v : jsval) :
  slot ids v -> length (filter (strict_eq v) ids) = ticked v.
Proof.
  intros Hs. unfold ticked. destruct Hs as [-> | Hin].
  - now rewrite count_null.
  - rewrite count_present; auto using ids_identifier.
    now rewrite identifier_truthy by now apply ids_identifier.
Qed.

Lemma selected_count (p : VersionsPanelState) :
  selection_invariant ids p ->
  length (selected_ids ids p) = (ticked (selectedV1 p) + ticked (selectedV2 p))%nat.
Proof.
  intros (H1 & H2 & H3). unfold selected_ids, checked.
  rewrite filter_or_length.
  - now rewrite !slot_count.
  - intros x Hx. destruct (strict_eq (selectedV1 p) x) eqn:E1; [|reflexivity].
    destruct (strict_eq (selectedV2 p) x) eqn:E2; [|reflexivity].
    apply (slot_eq _ _ H1 Hx) in E1. apply (slot_eq _ _ H2 Hx) in E2.
    assert (selectedV1 p = JNull) by (apply H3; congruence).
    apply ids_identifier in Hx. destruct x; try discriminate; congruence.
Qed.

(** A click on the box of [vid] leaves every other box as it was. *)
Lemma toggle_keeps_others (p : VersionsPanelState) (vid u : jsval) :
  selection_invariant ids p -> In vid ids -> In u ids -> u <> vid ->
  checked (toggle vid p) u = checked p u.
Proof.
  intros (H1 & H2 & H3) Hv Hu Hne.
  pose proof (ids_identifier vid Hv) as Hid.
  pose proof (ids_identifier u Hu) as Hidu.
  assert (Evu : strict_eq vid u = false).
  { destruct (strict_eq vid u) eqn:E; [|reflexivity].
    apply strict_eq_eq in E; [congruence | assumption]. }
  pose proof (strict_eq_null_identifier u Hidu) as Nu.
  unfold toggle, disabled, checked, onChange.
  destruct (truthy (selectedV1 p)) eqn:T1, (truthy (selectedV2 p)) eqn:T2,
           (strict_eq (selectedV1 p) vid) eqn:E1, (strict_eq (selectedV2 p) vid) eqn:E2;
    cbn [negb andb orb selectedV1 selectedV2 setSelectedV1 setSelectedV2];
    try (apply (slot_eq _ _ H1 Hv) in E1); try (apply (slot_eq _ _ H2 Hv) in E2);
    rewrite ?E1, ?E2, ?Evu, ?Nu; cbn [orb]; try reflexivity.
  all: try (destruct H1 as [N1 | I1];
            [rewrite N1, ?Nu; reflexivity
            | apply ids_identifier, identifier_truthy in I1; congruence]).
  all: try (destruct H2 as [N2 | I2];
            [rewrite N2, ?Nu, ?orb_false_r; reflexivity
            | apply ids_identifier, identifier_truthy in I2; congruence]).
Qed.

(** C6, amended: for version ids that are distinct and truthy (non-zero
    numbers, non-empty strings), in every state of the version selection
    reached by clicking the boxes of the listed versions: clicking an
    unticked box while fewer than two are ticked ticks it; clicking a
    ticked box unticks it; either click leaves every other box as it
    was; while two are ticked every other box is disabled and a click on
    it changes nothing, so at most two are ever ticked; the compare
    button is rendered exactly when two distinct ids are ticked, and it
    can be clicked exactly when, in addition, no comparison is
    loading. *)
Theorem selection_pair_rules (p : VersionsPanelState) (vid : jsval) :
  reachable ids p -> In vid ids ->
  (checked p vid = false -> (length (selected_ids ids p) < 2)%nat ->
     checked (toggle vid p) vid = true)
  /\ (checked p vid = true -> checked (toggle vid p) vid = false)
  /\ (forall u, In u ids -> u <> vid -> checked (toggle vid p) u = checked p u)
  /\ (length (selected_ids ids p) = 2%nat -> checked p vid = false ->
        disabled p vid = true /\ toggle vid p = p)
  /\ (length (selected_ids ids p) <= 2)%nat
  /\ NoDup (selected_ids ids p)
  /\ (compareButton p <> None <-> length (selected_ids ids p) = 2%nat)
  /\ (compareEnabled p = true
      <-> length (selected_ids ids p) = 2%nat /\ vp_loading p = false).
Proof.
  intros Hreach Hv.
  pose proof (reachable_invariant p Hreach) as Hinv.
  pose proof (selected_count p Hinv) as Hcount.
  pose proof (ids_identifier vid Hv) as Hid.
  pose proof (fun u Hu Hne => toggle_keeps_others p vid u Hinv Hv Hu Hne) as Hothers.
  destruct Hinv as (H1 & H2 & H3).
  unfold compareEnabled, compareButton, canCompare, toggle, disabled, checked, onChange,
    ticked in *.
  rewrite Hcount.
  destruct (truthy (selectedV1 p)) eqn:T1, (truthy (selectedV2 p)) eqn:T2,
           (strict_eq (selectedV1 p) vid) eqn:E1, (strict_eq (selectedV2 p) vid) eqn:E2;
    cbn [negb andb orb selectedV1 selectedV2 setSelectedV1 setSelectedV2] in *;
    rewrite ?(strict_eq_refl vid Hid), ?(strict_eq_null_identifier vid Hid), ?E1, ?E2;
    cbn [negb andb orb];
    (split; [|split; [|split; [exact Hothers|split; [|split; [|split; [|split; [|]]]]]]]);
    try congruence; try lia; try (intros; lia);
    try (apply NoDup_filter; assumption).
  all: try (intros _ _; split; reflexivity).
  all: try (split; [intros N; now contradiction N | intros; lia]).
  all: try (split; [reflexivity | discriminate]).
  all: rewrite negb_true_iff; split; [intros ->; split; reflexivity | now intros [_ ->]].
Qed.
End Selection.

Lemma selection_pair_rules_witness :
  let ids := [JNum 1; JNum 2; JNum 3] in
  let p := toggle (JNum 2) (toggle (JNum 1) initialVersionsPanel) in
  selectedV1 p = JNum 1 /\ selectedV2 p = JNum 2
  /\ (length (selected_ids ids p) = 2%nat -> checked p (JNum 3) = false ->
      disabled p (JNum 3) = true /\ toggle (JNum 3) p = p)
  /\ (compareButton p <> None <-> length (selected_ids ids p) = 2%nat)
  /\ (compareEnabled p = true
      <-> length (selected_ids ids p) = 2%nat /\ vp_loading p = false).
Proof.
  cbv zeta.
  assert (Hnd : NoDup [JNum 1; JNum 2; JNum 3]).
  { repeat constructor; cbn; intuition discriminate. }
  assert (Hid : Forall (fun v => identifier v = true) [JNum 1; JNum 2; JNum 3]).
  { repeat constructor. }
  assert (Hr : reachable [JNum 1; JNum 2; JNum 3]
                 (toggle (JNum 2) (toggle (JNum 1) initialVersionsPanel))).
  { apply reach_toggle; [apply reach_toggle; [apply reach_reset; reflexivity|]|];
      cbn; auto. }
  pose proof (selection_pair_rules [JNum 1; JNum 2; JNum 3] Hnd Hid _ (JNum 3) Hr
                (or_intror (or_intror (or_introl eq_refl)))) as T.
  split; [reflexivity|]. split; [reflexivity|]. repeat split; apply T.
Defined.

(** What [loading] holds does not matter to the selection: a click
    commutes with [setLoading], so the reachable selections are the
    same while a comparison is in flight. *)
Lemma toggle_loading_as (b : bool) (vid : jsval) (p : VersionsPanelState) :
  toggle vid (loading_as b p) = loading_as b (toggle vid p).
Proof.
  unfold toggle, disabled, checked, onChange. cbn [loading_as selectedV1 selectedV2].
  destruct (truthy (selectedV1 p)), (truthy (selectedV2 p)),
           (strict_eq (selectedV1 p) vid), (strict_eq (selectedV2 p) vid);
    reflexivity.
Qed.

Lemma reachable_loading (ids : list jsval) (b : bool) (p : VersionsPanelState) :
  reachable ids p -> reachable ids (loading_as b p).
Proof.
  induction 1 as [p H1 H2 | p vid _ IH Hv].
  - apply reach_reset; assumption.
  - rewrite <- toggle_loading_as. now apply reach_toggle.
Qed.

(** C6 as stated fails in two places.  With the version id 0, which the
    guards [!selectedV1] and [selectedV1 && selectedV2] take for an
    empty slot: after ticking 5 and 0 two boxes are ticked, yet no
    compare button is rendered, the box of 6 is not disabled, and
    ticking it unticks 0.  And while a comparison is loading (the state
    [compare] leaves at line 1052 until the answer arrives): two boxes
    are ticked and the button is rendered, but disabled. *)
Lemma selection_rules_fail_for_id_zero_and_while_loading :
  let ids := [JNum 5; JNum 0; JNum 6] in
  let p := toggle (JNum 0) (toggle (JNum 5) initialVersionsPanel) in
  let q := toggle (JNum 2) (toggle (JNum 1) initialVersionsPanel) in
  let w := {| store := with_versionsPanel (fun _ => q) initialStore; trace := [] |} in
  let q' := versionsPanel (store (after (setLoading true)
                                        (Sample.always (Sample.ok200 (JObj [])) true) w)) in
  NoDup ids
  /\ reachable ids p
  /\ selected_ids ids p = [JNum 5; JNum 0]
  /\ compareButton p = None
  /\ disabled p (JNum 6) = false
  /\ selected_ids ids (toggle (JNum 6) p) = [JNum 5; JNum 6]
  /\ q' = loading_as true q
  /\ reachable [JNum 1; JNum 2] q'
  /\ selected_ids [JNum 1; JNum 2] q' = [JNum 1; JNum 2]
  /\ compareButton q' = Some true
  /\ compareEnabled q' = false
  /\ ~ selection_rules_as_stated.
Proof.
  cbv zeta.
  assert (Hnd : NoDup [JNum 5; JNum 0; JNum 6]).
  { repeat constructor; cbn; intuition discriminate. }
  assert (Hr : reachable [JNum 5; JNum 0; JNum 6]
                 (toggle (JNum 0) (toggle (JNum 5) initialVersionsPanel))).
  { apply reach_toggle; [apply reach_toggle; [apply reach_reset; reflexivity|]|];
      cbn; auto. }
  split; [exact Hnd|]. split; [exact Hr|].
  repeat (split; [reflexivity|]).
  split.
  { apply (reachable_loading [JNum 1; JNum 2] true).
    apply reach_toggle; [apply reach_toggle; [apply reach_reset; reflexivity|]|];
      cbn; auto. }
  repeat (split; [reflexivity|]).
  intros H.
  destruct (H [JNum 5; JNum 0; JNum 6] _ (JNum 6) Hnd Hr
              (or_intror (or_intror (or_introl eq_refl))))
    as (_ & _ & Hthird & _).
  specialize (Hthird eq_refl eq_refl). discriminate Hthird.
Qed.


(** ** Deleting a dataset *)

Lemma filter_items_defined (deletedId : jsval) (l : list jsval) :
  Forall (fun d => defined d = true) l ->
  filter_items (App.keeps deletedId) l
  = Ok (filter (fun d => negb (strict_eq (prop d "id") deletedId)) l).
Proof.
  induction 1 as [|d l Hd _ IH]; cbn [filter_items filter]; [reflexivity|].
  unfold App.keeps at 1. rewrite (get_defined d "id" Hd), IH. cbn [rbind].
  now destruct (strict_eq (prop d "id") deletedId).
Qed.

(** [App.handleDelete] on a list of datasets. *)
Lemma app_handleDelete_eq (deletedId : jsval) (l : list jsval) (o : Oracle) (w : World) :
  datasets (app (store w)) = JArr l ->
  Forall (fun d => defined d = true) l ->
  exists st,
    App.handleDelete deletedId o w = (Ok tt, {| store := st; trace := trace w |})
    /\ datasets (app st)
       = JArr (filter (fun d => negb (strict_eq (prop d "id") deletedId)) l)
    /\ selected (app st)
       = (if strict_eq (get_opt (selected (app (store w))) "id") deletedId
          then JNull else selected (app (store w)))
    /\ uploadZone st = uploadZone (store w)
    /\ datasetList st = datasetList (store w)
    /\ versionsPanel st = versionsPanel (store w).
Proof.
  intros Hl Hdef. destruct w as [st tr]. cbn [store trace] in *.
  run_handler. cbn [store trace fst snd]. rewrite Hl. cbn [array_filter].
  rewrite (filter_items_defined deletedId l Hdef). cbn [rbind].
  destruct (strict_eq (get_opt (selected (app st)) "id") deletedId);
    eexists; (split; [reflexivity|]); cbn; auto.
Qed.


(** [App.handleDelete] is the closure of the render that shows the
    current selection. *)
Lemma handleDelete_closure_now (deletedId : jsval) (o : Oracle) (w : World) :
  App.handleDelete deletedId o w
  = App.handleDelete_closure (selected (app (store w))) deletedId o w.
Proof. reflexivity. Qed.






(** C10: the delete handler asks for confirmation first.  Whatever the
    environment answers, the events it adds are of one of three shapes:
    none (the dataset has no name to ask about), the declined dialog
    alone, or the accepted dialog followed by the DELETE request.  So a
    request is issued only after the dialog returned true, and when it
    returns false nothing is requested and the store (dataset list,
    selection) stays as it was. *)
Theorem delete_waits_for_confirmation (ds : jsval) (o : Oracle) (w : World) :
  let w' := after (DatasetList.handleDelete App.handleDelete ds) o w in
  let q := DatasetList.question (prop ds "name") in
  exists new,
    trace w' = (trace w ++ new)%list
    /\ (confirm o q = false -> requests new = [] /\ store w' = store w)
    /\ (forall req, In req (requests new) ->
          confirm o q = true
          /\ req = delete_request ds
          /\ method req = "DELETE"
          /\ exists rest,
               new = EvConfirm q true :: EvFetch req :: rest /\ requests rest = []).
Proof.
  cbv zeta. destruct w as [st tr].
  unfold after, DatasetList.handleDelete. run_handler. fold (delete_request ds).
  cbn [store trace fst snd].
  destruct (get ds "name") as [nm|e] eqn:Hname.
  - assert (Hnm : nm = prop ds "name").
    { destruct ds; inversion Hname; reflexivity. }
    subst nm. cbn [store trace fst snd].
    destruct (confirm o (DatasetList.question (prop ds "name"))) eqn:Hc; cbn [negb].
    + split_cases; rewrite <- ?app_assoc; cbn [List.app];
        (eexists; split; [reflexivity|]); (split; [discriminate|]);
        cbn [requests In]; intros req [<- | []];
        (split; [reflexivity|]); (split; [reflexivity|]); (split; [reflexivity|]);
        eexists; split; reflexivity.
    + cbn [store trace fst snd]. eexists; split; [reflexivity|]. split.
      * intros _. split; reflexivity.
      * cbn [requests In]. intros req [].
  - cbn [store trace fst snd]. exists []. rewrite app_nil_r. split; [reflexivity|].
    split.
    + intros _. split; reflexivity.
    + cbn. intros req [].
Qed.

(** ** Uploading a new version *)

(** X20: On success the new-version upload posts to
    [/datasets/{id}/new-version], then re-reads the version list of that
    dataset, and leaves the dataset list and the selection of [App]
    alone. *)
Lemma new_version_success
    (dataset : jsval) (f : File) (o : Oracle) (w : World) (r : Response) (v : jsval) :
  endsWith (name f) ".csv" = true ->
  defined dataset = true ->
  net o (length (requests (trace w))) (new_version_request dataset f) = Resp r ->
  ok r = true ->
  json r = Ok v ->
  let w' := after (uploadNewVersion dataset (Some f)) o w in
  trace w' = (trace w ++ [EvFetch (new_version_request dataset f);
                          EvFetch (versions_request dataset);
                          EvAlert "✓ New version uploaded!"])%list
  /\ app (store w') = app (store w).
Proof.
  intros Hcsv Hdef Hnet Hok Hjson. cbv zeta. destruct w as [st tr].
  unfold after, uploadNewVersion. rewrite (csv_guard f Hcsv).
  run_handler. cbn [store trace fst snd] in *.
  rewrite !(get_defined dataset "id" Hdef).
  fold (new_version_request dataset f). fold (versions_request dataset).
  cbn [store trace fst snd]. rewrite Hnet. unfold api_then at 1. rewrite Hok, Hjson.
  cbn [negb]. split_cases; rewrite <- ?app_assoc; cbn [List.app]; split; reflexivity.
Qed.

(** C7 at a failing input: the service answers the new-version upload
    with the 422 diagnostic that the root upload keeps field by field;
    here the request does go to [/datasets/1/new-version], once, but all
    that survives of the answer is the alert "Upload failed: 422
    Unprocessable Entity": no diagnostic field is stored or shown. *)
Theorem new_version_upload_drops_diagnostic :
  let o := Sample.always Sample.r422 true in
  let w' := after (uploadNewVersion Sample.d1 (Some Sample.csv)) o Sample.w0 in
  let root := after (UploadZone.upload App.handleUploaded (Some Sample.csv)) o Sample.w0 in
  trace w'
  = [EvFetch {| url := "http://localhost:8000/datasets/1/new-version";
                method := "POST";
                body := FormData "file" Sample.csv |};
     EvAlert "Upload failed: 422 Unprocessable Entity"]
  /\ store w' = initialStore
  /\ option_map details (msg (uploadZone (store root))) = Some Sample.detail.
Proof. cbv zeta. repeat split; reflexivity. Qed.

(** ** Validation results *)

Lemma renders_child (v : jsval) : renders v = true -> exists c, child v = Ok c.
Proof. unfold renders. destruct (child v); [eauto | discriminate]. Qed.

Lemma map_result_Forall2 {A B} (f : A -> result B) (R : A -> B -> Prop) (l : list A) :
  Forall (fun x => exists y, f x = Ok y /\ R x y) l ->
  exists l', map_result f l = Ok l' /\ Forall2 R l l'.
Proof.
  induction 1 as [|x l [y [Hy HR]] _ [l' [IH IHR]]]; cbn [map_result].
  - exists []. split; [reflexivity | constructor].
  - rewrite Hy, IH. cbn [rbind]. exists (y :: l'). split; [reflexivity|].
    now constructor.
Qed.

Lemma string_app_nil_r (s : string) : s ++ "" = s.
Proof. induction s; cbn; congruence. Qed.

Lemma string_app_assoc (a b c : string) : (a ++ b) ++ c = a ++ b ++ c.
Proof. induction a; cbn; congruence. Qed.

Lemma text_of_El (t : string) (cs : list node) : text_of (El t cs) = texts cs.
Proof. reflexivity. Qed.

Lemma texts_cons (c : node) (cs : list node) : texts (c :: cs) = text_of c ++ texts cs.
Proof. reflexivity. Qed.

Lemma texts_nil : texts [] = "".
Proof. reflexivity. Qed.

Lemma texts_app (a b : list node) : texts (a ++ b) = texts a ++ texts b.
Proof.
  induction a as [|c a IH]; [reflexivity|].
  cbn [List.app]. now rewrite !texts_cons, IH, string_app_assoc.
Qed.

Lemma child_shown (v : jsval) (c : list node) : child v = Ok c -> texts c = shown v.
Proof. intros H. unfold shown. now rewrite H. Qed.

Lemma renders_shown (v : jsval) :
  renders v = true -> exists c, child v = Ok c /\ texts c = shown v.
Proof.
  intros H. destruct (renders_child v H) as [c Hc]. exists c.
  split; [exact Hc | now apply child_shown].
Qed.

Lemma shown_number (n : Z) : shown (JNum n) = string_of_Z n.
Proof. unfold shown, texts. cbn. apply string_app_nil_r. Qed.

Lemma shown_string (s : string) : shown (JStr s) = s.
Proof. unfold shown, texts. cbn. apply string_app_nil_r. Qed.

Lemma text_of_Text (s : string) : text_of (Text s) = s.
Proof. reflexivity. Qed.

Lemma string_app_nil_l (s : string) : "" ++ s = s.
Proof. reflexivity. Qed.

Ltac text_normal :=
  rewrite ?text_of_El;
  repeat (progress rewrite ?text_of_El, ?text_of_Text, ?texts_cons, ?texts_app, ?texts_nil,
                           ?string_app_assoc, ?string_app_nil_r, ?string_app_nil_l).

(** [Object.entries] lists fields of the object, nothing else. *)
Lemma own_fields_incl (fs : list (string * jsval)) (kv : string * jsval) :
  In kv (own_fields fs) -> In kv fs.
Proof.
  induction fs as [|x fs IH]; cbn [own_fields In]; [tauto|].
  intros [-> | H]; [now left|]. right. apply IH.
  apply filter_In in H. tauto.
Qed.

Lemma insert_index_In (n : N) (kv : string * jsval)
    (l : list (N * (string * jsval))) (x : N * (string * jsval)) :
  In x (insert_index n kv l) -> x = (n, kv) \/ In x l.
Proof.
  induction l as [|[m kv'] l IH]; cbn [insert_index In].
  - intros [<- | []]. now left.
  - destruct (n <? m)%N; cbn [In].
    + intros [<- | [<- | H]]; auto.
    + intros [<- | H]; auto. destruct (IH H); auto.
Qed.

Lemma indexed_fields_incl (fs : list (string * jsval)) (x : N * (string * jsval)) :
  In x (indexed_fields fs) -> In (snd x) fs.
Proof.
  induction fs as [|kv fs IH]; cbn [indexed_fields fold_right In]; [tauto|].
  fold (indexed_fields fs).
  destruct (array_index (fst kv)); [|now right; apply IH].
  intros H. destruct (insert_index_In _ _ _ _ H) as [-> | H']; [now left|].
  right. now apply IH.
Qed.

Lemma ordered_fields_incl (fs : list (string * jsval)) (kv : string * jsval) :
  In kv (ordered_fields fs) -> In kv fs.
Proof.
  unfold ordered_fields. rewrite in_app_iff, in_map_iff, filter_In.
  intros [[x [<- Hx]] | [H _]]; apply own_fields_incl; [|exact H].
  now apply indexed_fields_incl.
Qed.

Lemma render_entry_shows (kv : string * jsval) :
  renders (snd kv) = true ->
  exists cell, RulesPanel.render_entry kv = Ok cell /\ shows_entry kv cell.
Proof.
  intros H. destruct (renders_shown _ H) as [c [Hc Ht]].
  unfold RulesPanel.render_entry, shows_entry. rewrite Hc. cbn [rbind].
  eexists. split; [reflexivity|]. text_normal. now rewrite Ht.
Qed.

(** A well-formed violation renders, as the row [shows_violation]
    describes. *)
Lemma well_formed_violation_renders (v : jsval) :
  well_formed_violation v = true ->
  exists row, RulesPanel.render_violation v = Ok row /\ shows_violation v row.
Proof.
  unfold well_formed_violation. rewrite !andb_true_iff.
  intros [[[Hdef Hri] Hcv] Hrd].
  unfold RulesPanel.render_violation, shows_violation.
  rewrite (get_defined v "row_index" Hdef). cbn [rbind].
  destruct (renders_shown _ Hri) as [ri [-> Tri]]. cbn [rbind].
  destruct (renders_shown _ Hcv) as [cv [-> Tcv]]. cbn [rbind].
  destruct (prop v "row_data") as [| | | | | |fs]; try discriminate.
  cbn [object_entries rbind].
  destruct (map_result_Forall2 RulesPanel.render_entry shows_entry (ordered_fields fs))
    as [cells [-> Hcells]].
  - rewrite forallb_forall in Hrd. apply Forall_forall. intros kv Hkv.
    apply render_entry_shows, Hrd. now apply ordered_fields_incl.
  - cbn [rbind]. eexists. split; [reflexivity|].
    do 3 eexists. split; [reflexivity|]. split; [|split; [reflexivity|split]].
    + text_normal. now rewrite Tri, Tcv.
    + symmetry. exact (Forall2_length Hcells).
    + exact Hcells.
Qed.

(** The violation panel of a well-formed rule result. *)
Lemma well_formed_rule_sample (r : jsval) :
  well_formed_rule r = true ->
  exists panel, RulesPanel.render_violations r = Ok panel /\ shows_sample r panel.
Proof.
  unfold well_formed_rule. rewrite !andb_true_iff.
  intros [[[[[Hdef _] _] _] _] Hvd].
  unfold RulesPanel.render_violations, shows_sample.
  rewrite (get_defined r "violation_details" Hdef). cbn [rbind].
  destruct (prop r "violation_details") as [| | | | |vd|]; try discriminate;
    try (exists []; split; reflexivity).
  destruct vd as [|v vd]; [exists []; split; reflexivity|].
  apply andb_true_iff in Hvd. destruct Hvd as [Hn Hwf].
  destruct (renders_shown _ Hn) as [total [Htotal Ttotal]].
  destruct (map_result_Forall2 RulesPanel.render_violation shows_violation (v :: vd))
    as [rows [Hrows HR]].
  { rewrite forallb_forall in Hwf. apply Forall_forall. intros x Hx.
    now apply well_formed_violation_renders, Hwf. }
  unfold and_then, RulesPanel.render_violations_header.
  cbn [truthy prop String.eqb Ascii.eqb Bool.eqb js_gt0].
  assert (Hlen : (0 <? Z.of_nat (length (v :: vd))) = true).
  { apply Z.ltb_lt. cbn [length]. lia. }
  rewrite Hlen, Htotal. cbn [rbind child]. rewrite Hrows. cbn [rbind].
  eexists. split; [reflexivity|]. do 2 eexists. split; [reflexivity|].
  split; [|split; [|exact HR]].
  - text_normal. now rewrite Ttotal.
  - symmetry. exact (Forall2_length HR).
Qed.

(** The card of a well-formed rule result. *)
Lemma well_formed_rule_renders (JSON_stringify : jsval -> string) (r : jsval) :
  well_formed_rule r = true ->
  exists card, RulesPanel.render_rule JSON_stringify r = Ok card
               /\ shows_rule JSON_stringify r card.
Proof.
  intros Hwf. destruct (well_formed_rule_sample r Hwf) as [panel [Hpanel Hshows]].
  revert Hwf. unfold well_formed_rule. rewrite !andb_true_iff.
  intros [[[[[Hdef Hc] Ht] Hs] Hm] _].
  unfold RulesPanel.render_rule, shows_rule.
  rewrite (get_defined r "rule_id" Hdef). cbn [rbind].
  destruct (renders_shown _ Hc) as [column [-> Tc]]. cbn [rbind].
  destruct (renders_shown _ Ht) as [rule_type [-> Tt]]. cbn [rbind].
  destruct (renders_shown _ Hs) as [status [-> Ts]].
  destruct (renders_shown _ Hm) as [message [-> Tm]].
  rewrite Hpanel. unfold and_then.
  destruct (truthy (prop r "parameters")) eqn:Tp; cbn [rbind].
  - eexists. split; [reflexivity|]. do 3 eexists. split; [reflexivity|].
    split; [|split; [|exact Hshows]]; text_normal; now rewrite ?Tc, ?Tt, ?Ts, ?Tm.
  - assert (Hp : renders (prop r "parameters") = true).
    { destruct (prop r "parameters"); try discriminate; reflexivity. }
    destruct (renders_shown _ Hp) as [ps [-> Tps]]. cbn [rbind].
    eexists. split; [reflexivity|]. do 3 eexists. split; [reflexivity|].
    split; [|split; [|exact Hshows]]; text_normal; now rewrite ?Tc, ?Tt, ?Ts, ?Tm, ?Tps.
Qed.

(** The results block cannot be rendered without the list of rule
    results: [valResult.results.map] is not guarded. *)
Lemma render_valResult_needs_results (JSON_stringify : jsval -> string) (valResult : jsval) :
  truthy valResult = true ->
  (forall rs, prop valResult "results" <> JArr rs) ->
  exists e, RulesPanel.render_valResult JSON_stringify valResult = Throw e.
Proof.
  intros Ht Hrs. unfold RulesPanel.render_valResult, and_then. rewrite Ht.
  destruct (RulesPanel.render_summary valResult); cbn [rbind]; [|now eexists].
  destruct (prop valResult "results") as [| | | | |rs|]; try (now eexists).
  now contradiction (Hrs rs).
Qed.

(** C9: for every validation result whose counts are numbers and whose
    rule results are well formed, the results block renders as one
    card: the title, the box with the headline and the summary, which
    reads "{passed} passed, {failed} failed", and one card per rule
    result, in order.  In the card of a rule result with a non-empty
    sample the violation panel is a header reading
    "Violations ({violations} total, showing first {k}):", k being the
    length of [violation_details], over exactly k rows, the i-th of
    which is a heading "Row {row_index}: {column_value}" over one cell
    "{name}: {value}" per entry of the [row_data] of the i-th sampled
    violation; with no sample there is no panel. *)
Theorem validation_summary_and_sample
    (JSON_stringify : jsval -> string) (valResult : jsval) (p f : Z) (rs : list jsval) :
  prop valResult "passed" = JNum p ->
  prop valResult "failed" = JNum f ->
  prop valResult "results" = JArr rs ->
  Forall (fun r => well_formed_rule r = true) rs ->
  exists summary cards,
    RulesPanel.render_valResult JSON_stringify valResult
    = Ok [El "div" (El "h4" [Text "Validation Results"]
                    :: El "div" [El "p" [Text (RulesPanel.headline valResult)]; summary]
                    :: cards)]
    /\ text_of summary = string_of_Z p ++ " passed, " ++ string_of_Z f ++ " failed"
    /\ length cards = length rs
    /\ Forall2 (shows_rule JSON_stringify) rs cards.
Proof.
  intros Hp Hf Hrs Hwf.
  assert (Ht : truthy valResult = true).
  { destruct valResult; try reflexivity; cbn in Hp; discriminate. }
  destruct (map_result_Forall2 (RulesPanel.render_rule JSON_stringify)
              (shows_rule JSON_stringify) rs) as [cards [Hcards HR]].
  { apply Forall_forall. intros r Hr. apply well_formed_rule_renders.
    rewrite Forall_forall in Hwf. now apply Hwf. }
  unfold RulesPanel.render_valResult, RulesPanel.render_summary, and_then.
  rewrite Ht, Hp, Hf, Hrs. cbn [child rbind]. rewrite Hcards. cbn [rbind].
  do 2 eexists. split; [reflexivity|]. split; [|split; [|exact HR]].
  - text_normal. reflexivity.
  - symmetry. exact (Forall2_length HR).
Qed.

Lemma validation_summary_and_sample_witness :
  let row i v :=
    El "div" [El "div" [Text "Row "; Text i; Text ": "; El "span" [Text v]];
              El "div" [El "span" [Text "2023"; Text ": "];
                        El "span" [Text "2024"; Text ": "; Text v];
                        El "span" [Text "city"; Text ": "; Text "Oslo"]]] in
  RulesPanel.render_valResult sample_stringify_parameters Sample.valResult
  = Ok [El "div"
          [El "h4" [Text "Validation Results"];
           El "div" [El "p" [Text "✗ Validation Failed"];
                     El "p" [Text "3"; Text " passed, "; Text "1"; Text " failed"]];
           El "div"
             [El "div" [El "div" [El "span" [Text "2024"]; El "span" [Text "range"];
                                  El "span" [Text RulesHandlers.range_template]];
                        El "span" [Text "FAILED"]];
              El "p" [Text "12 values out of range"];
              El "div"
                [El "p" [Text "Violations ("; Text "12"; Text " total, showing first ";
                         Text "3"; Text "):"];
                 El "div" [row "4" "130"; row "9" "-2"; row "17" "212"]]];
           El "div"
             [El "div" [El "div" [El "span" [Text "city"]; El "span" [Text "not_null"];
                                  El "span" [Text "{}"]];
                        El "span" [Text "PASSED"]];
              El "p" [Text "no missing values"]]]]
  /\ exists summary cards,
       RulesPanel.render_valResult sample_stringify_parameters Sample.valResult
       = Ok [El "div" (El "h4" [Text "Validation Results"]
                       :: El "div" [El "p" [Text "✗ Validation Failed"]; summary]
                       :: cards)]
       /\ text_of summary = "3 passed, 1 failed"
       /\ length cards = 2%nat
       /\ Forall2 (shows_rule sample_stringify_parameters)
                  [Sample.ruleResult; Sample.ruleResult2] cards.
Proof.
  cbv zeta. split; [reflexivity|].
  apply (validation_summary_and_sample sample_stringify_parameters Sample.valResult 3 1
           [Sample.ruleResult; Sample.ruleResult2] eq_refl eq_refl eq_refl).
  repeat constructor.
Defined.

(** [Object.entries] on a row whose column names include numbers: the
    array indices come first, in numeric order, whatever the order in
    the answer; a name such as "01" or "-1" is not an index. *)
Lemma object_entries_lists_indices_first :
  object_entries (JObj [("b", JNum 1); ("10", JNum 2); ("2", JNum 3); ("01", JNum 4);
                        ("a", JNum 5); ("0", JNum 6); ("-1", JNum 7)])
  = Ok [("0", JNum 6); ("2", JNum 3); ("10", JNum 2); ("b", JNum 1); ("01", JNum 4);
        ("a", JNum 5); ("-1", JNum 7)].
Proof. reflexivity. Qed.

(** ** The profile panel and late responses *)

Module ProfileFacts.
Import ProfilePanel.

Lemma step_quiet (s : State) (e : Ev) :
  data s = JNull -> quiet e = true -> data (step s e) = JNull.
Proof.
  intros Hd Hq. destruct e as [ds| |t|k o]; cbn [step].
  - destruct (strict_eq _ _); reflexivity || exact Hd.
  - unfold runProfile. destruct (loading s); exact Hd.
  - exact Hd.
  - cbn [quiet] in Hq. destruct (nth_error (inflight s) k) as [p|]; [|exact Hd].
    destruct (settled o); [discriminate|].
    destruct (p_origin p); exact Hd.
Qed.

Lemma run_quiet (evs : list Ev) (s : State) :
  data s = JNull -> forallb quiet evs = true -> data (run s evs) = JNull.
Proof.
  revert s. induction evs as [|e evs IH]; intros s Hd Hq; [exact Hd|].
  cbn [forallb] in Hq. apply andb_true_iff in Hq as [He Hq].
  cbn [run fold_left]. apply IH; [|exact Hq]. now apply step_quiet.
Qed.

Lemma settle_stores (s : State) (k : nat) (p : Pending) (o : Outcome) (v : jsval) :
  nth_error (inflight s) k = Some p ->
  settled o = Ok v ->
  data (step s (Settle k o)) = v /\ dataset (step s (Settle k o)) = dataset s.
Proof.
  intros Hk Ho. cbn [step]. rewrite Hk, Ho.
  destruct (p_origin p); split; reflexivity.
Qed.

End ProfileFacts.

(** C1, as the code has it: when the panel is given a dataset with
    another id, its data is reset to [null], the tab returns to the
    overview and the profile of the new dataset is requested; the data
    stays [null] as long as no request is answered with a profile; and
    the first profile that arrives is stored, whichever request it
    answers, also one that was issued for the previous dataset and is
    still in flight: answers carry no tag and none is discarded. *)
Theorem profile_reset_then_next_answer_is_stored
    (s : ProfilePanel.State) (d2 : jsval) :
  strict_eq (prop d2 "id") (prop (ProfilePanel.dataset s) "id") = false ->
  let s2 := ProfilePanel.step s (ProfilePanel.Props d2) in
  ProfilePanel.dataset s2 = d2
  /\ ProfilePanel.data s2 = JNull
  /\ ProfilePanel.tab s2 = "overview"
  /\ ProfilePanel.inflight s2
     = (ProfilePanel.inflight s ++
        [{| ProfilePanel.p_req := ProfilePanel.profile_request d2 default_opts;
            ProfilePanel.p_origin := ProfilePanel.FromEffect |}])%list
  /\ (forall evs, forallb quiet evs = true ->
        ProfilePanel.data (ProfilePanel.run s2 evs) = JNull)
  /\ (forall k p o v,
        nth_error (ProfilePanel.inflight s2) k = Some p ->
        ProfilePanel.settled o = Ok v ->
        ProfilePanel.data (ProfilePanel.step s2 (ProfilePanel.Settle k o)) = v
        /\ ProfilePanel.dataset (ProfilePanel.step s2 (ProfilePanel.Settle k o)) = d2).
Proof.
  intros Hid. cbv zeta.
  assert (Hs2 : ProfilePanel.step s (ProfilePanel.Props d2)
                = ProfilePanel.effect (ProfilePanel.with_dataset d2 s)).
  { cbn [ProfilePanel.step]. now rewrite Hid. }
  rewrite Hs2. do 4 (split; [reflexivity|]). split.
  - intros evs Hq. now apply ProfileFacts.run_quiet.
  - intros k p o v Hk Ho.
    destruct (ProfileFacts.settle_stores _ k p o v Hk Ho) as [A B].
    split; [exact A | rewrite B; reflexivity].
Qed.

Lemma profile_reset_then_next_answer_is_stored_witness :
  let s2 := ProfilePanel.step (ProfilePanel.mount Sample.d1) (ProfilePanel.Props Sample.d2) in
  ProfilePanel.data s2 = JNull
  /\ ProfilePanel.data
       (ProfilePanel.step s2 (ProfilePanel.Settle 0 (Resp (Sample.ok200 Sample.profile1))))
     = Sample.profile1.
Proof.
  cbv zeta.
  pose proof (profile_reset_then_next_answer_is_stored
                (ProfilePanel.mount Sample.d1) Sample.d2 eq_refl) as T.
  cbv zeta in T. destruct T as (_ & T1 & _ & _ & _ & T2).
  split; [exact T1|].
  exact (proj1 (T2 0%nat _ (Resp (Sample.ok200 Sample.profile1)) Sample.profile1
                  eq_refl eq_refl)).
Defined.

(** C1, as stated, fails: the panel is mounted for dataset 1, dataset 2
    is selected, and then the answer to the request issued for dataset 1
    arrives.  The panel, now bound to dataset 2 and still waiting for the
    profile of dataset 2, shows the profile of dataset 1. *)
Lemma late_profile_response_is_shown :
  let s := ProfilePanel.run (ProfilePanel.mount Sample.d1) [ProfilePanel.Props Sample.d2] in
  let s' := ProfilePanel.step s (ProfilePanel.Settle 0 (Resp (Sample.ok200 Sample.profile1))) in
  ProfilePanel.data s = JNull
  /\ ProfilePanel.dataset s' = Sample.d2
  /\ ProfilePanel.data s' = Sample.profile1
  /\ map (fun p => url (ProfilePanel.p_req p)) (ProfilePanel.inflight s')
     = ["http://localhost:8000/datasets/2/profile"]
  /\ ~ stale_responses_discarded.
Proof.
  cbv zeta. repeat split.
  intros H.
  specialize (H (ProfilePanel.run (ProfilePanel.mount Sample.d1) [ProfilePanel.Props Sample.d2])
                Sample.d1 Sample.d2 0%nat
                {| ProfilePanel.p_req := ProfilePanel.profile_request Sample.d1 default_opts;
                   ProfilePanel.p_origin := ProfilePanel.FromEffect |}
                (Resp (Sample.ok200 Sample.profile1))).
  assert (Hr : ProfilePanel.reachable
                 (ProfilePanel.run (ProfilePanel.mount Sample.d1)
                                   [ProfilePanel.Props Sample.d2])).
  { exists Sample.d1, [ProfilePanel.Props Sample.d2]. reflexivity. }
  specialize (H Hr eq_refl eq_refl eq_refl eq_refl).
  discriminate H.
Qed.

(** * Further properties of the code *)

(** ** The version selection, continued *)

Lemma slot_cases (ids : list jsval) (v vid : jsval) :
  Forall (fun v => identifier v = true) ids ->
  slot ids v -> In vid ids ->
  v = JNull \/ v = vid \/ (truthy v = true /\ strict_eq v vid = false).
Proof.
  intros Hids [-> | Hin] Hv; [now left|]. right.
  assert (Hid : identifier v = true) by (rewrite Forall_forall in Hids; auto).
  destruct (strict_eq v vid) eqn:E.
  - left. now apply strict_eq_eq in E.
  - right. split; [now apply identifier_truthy | reflexivity].
Qed.

(** X1: Clicking the same checkbox twice gives back the selection there was:
    every box shows what it showed before, so the set of ticked versions
    is the same.  (The id may have moved to the other slot: from
    [(null, b)] two clicks on [b] lead to [(b, null)].) *)
Theorem toggle_twice_restores_selection
    (ids : list jsval) (p : VersionsPanelState) (vid : jsval) :
  Forall (fun v => identifier v = true) ids ->
  reachable ids p ->
  In vid ids ->
  (forall x, checked (toggle vid (toggle vid p)) x = checked p x)
  /\ selected_ids ids (toggle vid (toggle vid p)) = selected_ids ids p.
Proof.
  intros Hids Hreach Hv.
  assert (Hall : forall x, checked (toggle vid (toggle vid p)) x = checked p x).
  { intros x.
    pose proof (reachable_invariant ids Hids p Hreach) as (H1 & H2 & H3).
    assert (Hid : identifier vid = true) by (rewrite Forall_forall in Hids; auto).
    pose proof (identifier_truthy vid Hid) as Tv.
    pose proof (strict_eq_refl vid Hid) as Ev.
    pose proof (strict_eq_null_identifier vid Hid) as Nv.
    destruct p as [vs cmp v1 v2 up ld]. cbn [selectedV1 selectedV2] in *.
    unfold toggle, disabled, checked, onChange.
    cbn [selectedV1 selectedV2 setSelectedV1 setSelectedV2].
    destruct (slot_cases ids v1 vid Hids H1 Hv) as [-> | [-> | [T1 E1]]];
      destruct (slot_cases ids v2 vid Hids H2 Hv) as [-> | [-> | [T2 E2]]];
      try (specialize (H3 eq_refl); subst; discriminate);
      cbn [truthy negb andb orb selectedV1 selectedV2 setSelectedV1 setSelectedV2];
      rewrite ?Tv, ?Ev, ?Nv, ?T1, ?T2, ?E1, ?E2;
      cbn [truthy negb andb orb selectedV1 selectedV2 setSelectedV1 setSelectedV2];
      rewrite ?Tv, ?Ev, ?Nv, ?T1, ?T2, ?E1, ?E2;
      cbn [truthy negb andb orb selectedV1 selectedV2 setSelectedV1 setSelectedV2];
      rewrite ?Tv, ?Ev, ?Nv, ?T1, ?T2, ?E1, ?E2;
      cbn [truthy negb andb orb selectedV1 selectedV2 setSelectedV1 setSelectedV2];
      try reflexivity; apply orb_comm. }
  split; [exact Hall|].
  unfold selected_ids. apply filter_ext. exact Hall.
Qed.

Lemma toggle_twice_restores_selection_witness :
  let p := toggle (JNum 2) (toggle (JNum 1) (toggle (JNum 2) initialVersionsPanel)) in
  selectedV1 p = JNull /\ selectedV2 p = JNum 1
  /\ selectedV1 (toggle (JNum 1) (toggle (JNum 1) p)) = JNum 1
  /\ selected_ids [JNum 1; JNum 2; JNum 3] (toggle (JNum 1) (toggle (JNum 1) p))
     = selected_ids [JNum 1; JNum 2; JNum 3] p.
Proof.
  cbv zeta. split; [reflexivity|]. split; [reflexivity|]. split; [reflexivity|].
  apply (toggle_twice_restores_selection [JNum 1; JNum 2; JNum 3]).
  - repeat constructor.
  - repeat (apply reach_toggle; [|cbn; auto]). apply reach_reset; reflexivity.
  - cbn; auto.
Defined.



(** X3: What [compare] does with the answer.  Without two selected versions
    it only raises an alert.  With two it sends one request; an answer
    that resolves becomes the comparison, a failure raises an alert and
    leaves the comparison shown before in place; either way [loading] is
    false when it ends and the selection is untouched. *)
Theorem compare_outcome (o : Oracle) (w : World) :
  let p := versionsPanel (store w) in
  let w' := after compare o w in
  let p' := versionsPanel (store w') in
  let req := compare_request (selectedV1 p) (selectedV2 p) in
  (canCompare p = false ->
     w' = {| store := store w;
             trace := (trace w ++ [EvAlert "Select two versions to compare"])%list |})
  /\ (canCompare p = true ->
       vp_loading p' = false
       /\ selectedV1 p' = selectedV1 p /\ selectedV2 p' = selectedV2 p
       /\ app (store w') = app (store w)
       /\ match ProfilePanel.settled (net o (length (requests (trace w))) req) with
          | Ok v =>
              comparison p' = v
              /\ trace w' = (trace w ++ [EvFetch req])%list
          | Throw e =>
              comparison p' = comparison p
              /\ trace w' = (trace w ++ [EvFetch req;
                                         EvAlert ("Compare failed: " ++ message e)])%list
          end).
Proof.
  cbv zeta. destruct w as [st tr]. unfold canCompare, compare_request.
  run_handler. cbn [store trace fst snd].
  destruct (truthy (selectedV1 (versionsPanel st))), (truthy (selectedV2 (versionsPanel st)));
    cbn [negb orb andb]; (split; [intros H | intros H]); try discriminate; try reflexivity.
  cbn [store trace fst snd].
  destruct (net o _ _) as [e|r]; cbn [ProfilePanel.settled store trace fst snd].
  - rewrite <- app_assoc. repeat split.
  - destruct (api_then r); cbn [store trace fst snd]; rewrite <- ?app_assoc; repeat split.
Qed.

(** ** Lists that are re-read from the service *)

(** X4: [loadVersions] never throws and never raises an alert.  It sends one
    GET; when the answer resolves to an object the version list becomes
    its [versions] field, or the empty array when the field is missing
    or falsy; when the request fails the list stays as it was.  The
    selection and the comparison are never touched. *)
Theorem loadVersions_outcome (dataset : jsval) (o : Oracle) (w : World) :
  defined dataset = true ->
  let p := versionsPanel (store w) in
  let w' := after (loadVersions dataset) o w in
  let p' := versionsPanel (store w') in
  fst (loadVersions dataset o w) = Ok tt
  /\ trace w' = (trace w ++ [EvFetch (versions_request dataset)])%list
  /\ app (store w') = app (store w)
  /\ selectedV1 p' = selectedV1 p /\ selectedV2 p' = selectedV2 p
  /\ comparison p' = comparison p
  /\ match ProfilePanel.settled
             (net o (length (requests (trace w))) (versions_request dataset)) with
     | Ok data =>
         if defined data
         then versions p' = js_or (prop data "versions") (JArr [])
         else versions p' = versions p
     | Throw _ => versions p' = versions p
     end.
Proof.
  intros Hdef. cbv zeta. destruct w as [st tr]. unfold versions_request.
  run_handler. rewrite (get_defined dataset "id" Hdef). cbn [store trace fst snd].
  destruct (net o _ _) as [e|r]; cbn [ProfilePanel.settled store trace fst snd].
  - repeat split.
  - destruct (api_then r) as [data|e]; cbn [store trace fst snd]; [|repeat split].
    destruct data; cbn [get defined store trace fst snd]; repeat split.
Qed.

Lemma loadVersions_outcome_witness :
  let o := Sample.always (Sample.ok200 (JObj [("lineage", JNum 1)])) true in
  let w' := after (loadVersions Sample.d1) o Sample.w0 in
  trace w' = [EvFetch (versions_request Sample.d1)]
  /\ versions (versionsPanel (store w')) = JArr [].
Proof.
  cbv zeta.
  pose proof (loadVersions_outcome Sample.d1
                (Sample.always (Sample.ok200 (JObj [("lineage", JNum 1)])) true)
                Sample.w0 eq_refl) as T.
  cbv zeta in T. destruct T as (_ & T1 & _ & _ & _ & _ & T2).
  split; [exact T1 | exact T2].
Defined.

(** X5: [loadDatasets] replaces the dataset list by whatever the service
    answers and never touches the selection or the active tab, also when
    the selected dataset is not in the new list; when the request fails
    the list stays as it was and nothing is reported. *)
Theorem loadDatasets_keeps_selection (o : Oracle) (w : World) :
  let w' := after App.loadDatasets o w in
  fst (App.loadDatasets o w) = Ok tt
  /\ trace w' = (trace w ++ [EvFetch datasets_request])%list
  /\ selected (app (store w')) = selected (app (store w))
  /\ activeTab (app (store w')) = activeTab (app (store w))
  /\ uploadZone (store w') = uploadZone (store w)
  /\ versionsPanel (store w') = versionsPanel (store w)
  /\ match ProfilePanel.settled (net o (length (requests (trace w))) datasets_request) with
     | Ok d => datasets (app (store w')) = d
     | Throw _ => datasets (app (store w')) = datasets (app (store w))
     end.
Proof.
  cbv zeta. destruct w as [st tr]. unfold datasets_request.
  run_handler. cbn [store trace fst snd].
  destruct (net o _ _) as [e|r]; cbn [ProfilePanel.settled store trace fst snd].
  - repeat split.
  - destruct (api_then r); cbn [store trace fst snd]; repeat split.
Qed.

(** ** Upload, continued *)

Lemma requests_snoc (t : list Event) (r : Request) :
  length (requests (t ++ [EvFetch r])) = S (length (requests t)).
Proof. rewrite requests_app, length_app. cbn. lia. Qed.

(** X6: A successful upload: the handler posts the file, reloads the dataset
    list, selects the dataset the service echoed and brings the profile
    tab to the front.  The selection is the echoed dataset whether or not
    the reload of the list succeeds. *)
Theorem upload_success_selects_the_new_dataset
    (f : File) (o : Oracle) (w : World) (r : Response) (ds : jsval) :
  endsWith (name f) ".csv" = true ->
  net o (length (requests (trace w))) (upload_request f) = Resp r ->
  ok r = true ->
  json r = Ok ds ->
  defined ds = true ->
  let w' := after (UploadZone.upload App.handleUploaded (Some f)) o w in
  fst (UploadZone.upload App.handleUploaded (Some f) o w) = Ok tt
  /\ trace w' = (trace w ++ [EvFetch (upload_request f); EvFetch datasets_request])%list
  /\ selected (app (store w')) = ds
  /\ activeTab (app (store w')) = "profile"
  /\ uploading (uploadZone (store w')) = false
  /\ msg (uploadZone (store w'))
     = Some {| msg_ok := true;
               text := JStr ("✓ " ++ dquote ++ to_string (prop ds "name") ++ dquote
                             ++ " uploaded — " ++ to_string (prop ds "total_rows")
                             ++ " rows");
               details := JUndef |}
  /\ match ProfilePanel.settled (net o (S (length (requests (trace w)))) datasets_request) with
     | Ok d => datasets (app (store w')) = d
     | Throw _ => datasets (app (store w')) = datasets (app (store w))
     end.
Proof.
  intros Hcsv Hnet Hok Hjson Hdef. cbv zeta. destruct w as [st tr].
  unfold UploadZone.upload. rewrite (csv_guard f Hcsv).
  run_handler. fold (upload_request f). fold datasets_request.
  assert (Hthen : api_then r = Ok ds) by (unfold api_then; now rewrite Hok).
  cbn [store trace fst snd] in *. rewrite !Hnet, !Hthen.
  cbn [store trace fst snd]. rewrite !(get_defined ds) by exact Hdef.
  cbn [store trace fst snd]. rewrite !requests_snoc.
  destruct (net o _ datasets_request) as [e|r2];
    cbn [ProfilePanel.settled store trace fst snd].
  - rewrite <- app_assoc. repeat split.
  - destruct (api_then r2); cbn [store trace fst snd]; rewrite <- app_assoc; repeat split.
Qed.

Lemma upload_success_selects_the_new_dataset_witness :
  let w' := after (UploadZone.upload App.handleUploaded (Some Sample.csv))
                  (Sample.always (Sample.ok200 Sample.d1) true) Sample.w0 in
  selected (app (store w')) = Sample.d1
  /\ activeTab (app (store w')) = "profile"
  /\ requests (trace w') = [upload_request Sample.csv; datasets_request].
Proof.
  cbv zeta.
  pose proof (upload_success_selects_the_new_dataset Sample.csv
                (Sample.always (Sample.ok200 Sample.d1) true) Sample.w0
                (Sample.ok200 Sample.d1) Sample.d1 eq_refl eq_refl eq_refl eq_refl eq_refl)
    as T.
  cbv zeta in T. destruct T as (_ & T1 & T2 & T3 & _).
  split; [exact T2|]. split; [exact T3|]. now rewrite T1.
Defined.

(** X7: When the first POST of an upload does not deliver a dataset (no
    answer, a non-success status, a body that is not JSON, or a null
    body), [onUploaded] is never called, whatever the second POST
    answers, even a success: the dataset list, the selection and the
    active tab stay as they were, the list is not reloaded, and the call
    ends with a failure message. *)
Theorem upload_failure_leaves_app_untouched
    (f : File) (o : Oracle) (w : World) :
  endsWith (name f) ".csv" = true ->
  (forall ds,
      ProfilePanel.settled (net o (length (requests (trace w))) (upload_request f)) = Ok ds ->
      defined ds = false) ->
  let w' := after (UploadZone.upload App.handleUploaded (Some f)) o w in
  fst (UploadZone.upload App.handleUploaded (Some f) o w) = Ok tt
  /\ app (store w') = app (store w)
  /\ requests (trace w')
     = (requests (trace w) ++ [upload_request f; upload_request f])%list
  /\ uploading (uploadZone (store w')) = false
  /\ exists m, msg (uploadZone (store w')) = Some m /\ msg_ok m = false.
Proof.
  intros Hcsv Hfail. cbv zeta. destruct w as [st tr].
  unfold UploadZone.upload. rewrite (csv_guard f Hcsv).
  run_handler. fold (upload_request f). cbn [store trace fst snd] in *.
  destruct (net o (length (requests tr)) (upload_request f)) as [e|r];
    cbn [ProfilePanel.settled] in Hfail.
  - split_cases; rewrite ?requests_app, <- ?app_assoc; cbn [requests List.app];
      repeat split; eexists; split; reflexivity.
  - destruct (api_then r) as [ds|e] eqn:Hthen.
    + specialize (Hfail ds eq_refl).
      destruct ds; try discriminate; cbn [get];
        split_cases; rewrite ?requests_app, <- ?app_assoc; cbn [requests List.app];
        repeat split; eexists; split; reflexivity.
    + split_cases; rewrite ?requests_app, <- ?app_assoc; cbn [requests List.app];
        repeat split; eexists; split; reflexivity.
Qed.

Lemma upload_failure_leaves_app_untouched_witness :
  let o := {| net := fun n _ => if Nat.eqb n 0
                                then NetworkError (mkError "Failed to fetch")
                                else Resp (Sample.ok200 Sample.d2);
              confirm := fun _ => true |} in
  let w' := after (UploadZone.upload App.handleUploaded (Some Sample.csv)) o Sample.w_listed in
  app (store w') = app (store Sample.w_listed)
  /\ msg (uploadZone (store w'))
     = Some {| msg_ok := false; text := JStr "Failed to fetch"; details := JUndef |}.
Proof.
  cbv zeta. split; [|reflexivity].
  apply (upload_failure_leaves_app_untouched Sample.csv
           {| net := fun n _ => if Nat.eqb n 0
                                then NetworkError (mkError "Failed to fetch")
                                else Resp (Sample.ok200 Sample.d2);
              confirm := fun _ => true |} Sample.w_listed eq_refl).
  intros ds H. discriminate H.
Defined.

(** X8: Every call of [upload] ends with feedback: the handler never throws,
    a message is set when it returns, and after an attempt with a .csv
    file the [uploading] flag is back to false. *)
Theorem upload_always_reports (file : option File) (o : Oracle) (w : World) :
  let w' := after (UploadZone.upload App.handleUploaded file) o w in
  fst (UploadZone.upload App.handleUploaded file o w) = Ok tt
  /\ (exists m, msg (uploadZone (store w')) = Some m)
  /\ (UploadZone.not_csv file = false -> uploading (uploadZone (store w')) = false)
  /\ dragging (uploadZone (store w')) = dragging (uploadZone (store w)).
Proof.
  cbv zeta. destruct w as [st tr]. unfold UploadZone.upload.
  destruct (UploadZone.not_csv file) eqn:Hguard.
  - run_handler. cbn. repeat split; [eexists; reflexivity | discriminate].
  - destruct file as [f|]; [|discriminate Hguard].
    run_handler. cbn [store trace fst snd].
    split_cases; repeat split; eexists; reflexivity.
Qed.

(** ** Deleting a dataset, continued *)

Lemma prefix_spec (p s : string) : prefix p s = true <-> exists t, s = p ++ t.
Proof.
  revert s. induction p as [|c p IH]; intros s.
  - split; [intros _; now exists s | intros _; now destruct s].
  - destruct s as [|d s]; simpl.
    + split; [discriminate | intros [t H]; discriminate H].
    + destruct (ascii_dec c d) as [->|Hne].
      * rewrite IH. split; intros [t H]; exists t; [now rewrite H | now inversion H].
      * split; [discriminate | intros [t H]; inversion H; congruence].
Qed.

(** [includes] is the substring test. *)
Lemma includes_spec (s sub : string) :
  includes s sub = true <-> exists a b, s = a ++ sub ++ b.
Proof.
  induction s as [|c s IH]; cbn [includes]; rewrite orb_true_iff.
  - rewrite prefix_spec. split.
    + intros [[t H] | H]; [|discriminate]. now exists "", t.
    + intros [a [b H]]. left. destruct a; [now exists b | discriminate].
  - rewrite prefix_spec, IH. split.
    + intros [[t H] | [a [b H]]].
      * now exists "", t.
      * exists (String c a), b. cbn. now rewrite H.
    + intros [a [b H]]. destruct a as [|d a].
      * left. now exists b.
      * right. exists a, b. cbn in H. now inversion H.
Qed.

(** X9: A delete that the user confirmed but [api] rejects (no answer, a
    non-success status, or a success whose body is not JSON) removes
    nothing: the dataset list and the selection stay as they were, one
    alert is raised and the [deleting] flag is cleared.  The alert is the
    child-versions message exactly when the error message contains
    "version", and "Delete failed: " followed by the message otherwise. *)
Theorem rejected_delete_removes_nothing
    (ds : jsval) (o : Oracle) (w : World) (e : Error) :
  defined ds = true ->
  confirm o (DatasetList.question (prop ds "name")) = true ->
  ProfilePanel.settled (net o (length (requests (trace w))) (delete_request ds)) = Throw e ->
  let w' := after (DatasetList.handleDelete App.handleDelete ds) o w in
  fst (DatasetList.handleDelete App.handleDelete ds o w) = Ok tt
  /\ app (store w') = app (store w)
  /\ deleting (datasetList (store w')) = JNull
  /\ trace w'
     = (trace w ++ [EvConfirm (DatasetList.question (prop ds "name")) true;
                    EvFetch (delete_request ds);
                    EvAlert (delete_failure_text e)])%list
  /\ (delete_failure_text e = "Cannot delete: child versions exist. Delete them first."
      <-> exists a b, message e = a ++ "version" ++ b).
Proof.
  intros Hds Hyes Hfail. cbv zeta. destruct w as [st tr].
  unfold DatasetList.handleDelete. run_handler. fold (delete_request ds).
  rewrite !(get_defined ds "name" Hds). cbn [store trace fst snd] in *.
  rewrite !Hyes. cbn [negb store trace fst snd].
  rewrite !requests_app. cbn [requests]. rewrite !app_nil_r.
  assert (Hrun :
    (let (r, w') :=
       match net o (length (requests tr)) (delete_request ds) with
       | NetworkError e0 =>
           (@Throw Response e0,
            {| store := with_datasetList (fun _ => {| deleting := prop ds "id" |}) st;
               trace := ((tr ++ [EvConfirm (DatasetList.question (prop ds "name")) true])
                         ++ [EvFetch (delete_request ds)])%list |})
       | Resp r =>
           (Ok r,
            {| store := with_datasetList (fun _ => {| deleting := prop ds "id" |}) st;
               trace := ((tr ++ [EvConfirm (DatasetList.question (prop ds "name")) true])
                         ++ [EvFetch (delete_request ds)])%list |})
       end in
     match r with
     | Ok a => (api_then a, w')
     | Throw e0 => (Throw e0, w')
     end)
    = (Throw e,
       {| store := with_datasetList (fun _ => {| deleting := prop ds "id" |}) st;
          trace := ((tr ++ [EvConfirm (DatasetList.question (prop ds "name")) true])
                    ++ [EvFetch (delete_request ds)])%list |})).
  { destruct (net o _ _) as [e0|r]; cbn [ProfilePanel.settled] in Hfail;
      [now inversion Hfail | now rewrite Hfail]. }
  rewrite !Hrun. cbn [store trace fst snd]. fold (delete_failure_text e).
  rewrite <- !app_assoc. cbn [List.app].
  repeat split.
  - unfold delete_failure_text. destruct (includes (message e) "version") eqn:Hinc.
    + intros _. now apply includes_spec.
    + intros H. cbn in H. discriminate H.
  - intros Hsub. apply includes_spec in Hsub. unfold delete_failure_text. now rewrite Hsub.
Qed.

Lemma rejected_delete_removes_nothing_witness :
  let o := Sample.always {| status := 204; statusText := "No Content";
                            json := Throw (mkError "Unexpected end of JSON input") |} true in
  let w' := after (DatasetList.handleDelete App.handleDelete Sample.d1) o Sample.w_listed in
  app (store w') = app (store Sample.w_listed)
  /\ trace w' = [EvConfirm (DatasetList.question (JStr "sales.csv")) true;
                 EvFetch (delete_request Sample.d1);
                 EvAlert "Delete failed: Unexpected end of JSON input"].
Proof.
  cbv zeta.
  pose proof (rejected_delete_removes_nothing Sample.d1
                (Sample.always {| status := 204; statusText := "No Content";
                                  json := Throw (mkError "Unexpected end of JSON input") |} true)
                Sample.w_listed (mkError "Unexpected end of JSON input")
                eq_refl eq_refl eq_refl) as T.
  cbv zeta in T. destruct T as (_ & T1 & _ & T2 & _).
  split; [exact T1 | exact T2].
Defined.

Lemma filter_keeps_all {A} (f : A -> bool) (l : list A) :
  (forall x, In x l -> f x = true) -> filter f l = l.
Proof.
  induction l as [|x l IH]; intros H; [reflexivity|]. cbn [filter].
  rewrite (H x (or_introl eq_refl)). f_equal. apply IH. intros y Hy. apply H. now right.
Qed.

(** X10: [App.handleDelete] on ids that are not there: removing an id that no
    listed dataset has leaves the list as it is, and removing the same id
    a second time changes neither the list nor the selection any more. *)
Theorem handleDelete_absent_and_repeated
    (deletedId : jsval) (l : list jsval) (o : Oracle) (w : World) :
  datasets (app (store w)) = JArr l ->
  Forall (fun d => defined d = true) l ->
  let once := after (App.handleDelete deletedId) o w in
  let twice := after (App.handleDelete deletedId) o once in
  ((forall d, In d l -> strict_eq (prop d "id") deletedId = false) ->
     datasets (app (store once)) = JArr l)
  /\ datasets (app (store twice)) = datasets (app (store once))
  /\ selected (app (store twice)) = selected (app (store once)).
Proof.
  intros Hl Hdef. cbv zeta.
  destruct (app_handleDelete_eq deletedId l o w Hl Hdef)
    as (st & Hrun & Hdata & Hsel & _).
  assert (Honce : after (App.handleDelete deletedId) o w
                  = {| store := st; trace := trace w |})
    by (unfold after; now rewrite Hrun).
  rewrite Honce. split.
  - intros Habsent. cbn [store]. rewrite Hdata. f_equal.
    apply filter_keeps_all. intros d Hd. now rewrite (Habsent d Hd).
  - set (l1 := filter (fun d => negb (strict_eq (prop d "id") deletedId)) l) in *.
    assert (Hdef1 : Forall (fun d => defined d = true) l1).
    { apply Forall_forall. intros d Hd. apply filter_In in Hd as [Hd _].
      rewrite Forall_forall in Hdef. now apply Hdef. }
    destruct (app_handleDelete_eq deletedId l1 o {| store := st; trace := trace w |}
                Hdata Hdef1)
      as (st2 & Hrun2 & Hdata2 & Hsel2 & _).
    unfold after. rewrite Hrun2. cbn [snd store trace] in *.
    assert (Hfilter : filter (fun d => negb (strict_eq (prop d "id") deletedId)) l1 = l1).
    { apply filter_keeps_all. intros d Hd. now apply filter_In in Hd. }
    rewrite Hfilter in Hdata2. split; [congruence|].
    rewrite Hsel2, Hsel.
    destruct (strict_eq (get_opt (selected (app (store w))) "id") deletedId) eqn:E1.
    + cbn [get_opt]. now destruct (strict_eq JUndef deletedId).
    + now rewrite E1.
Qed.

Lemma handleDelete_absent_and_repeated_witness :
  let o := Sample.always (Sample.ok200 (JObj [])) true in
  let once := after (App.handleDelete (JNum 7)) o Sample.w_listed in
  datasets (app (store once)) = JArr [Sample.d1; Sample.d2]
  /\ selected (app (store (after (App.handleDelete (JNum 7)) o once))) = Sample.d1.
Proof.
  cbv zeta.
  pose proof (handleDelete_absent_and_repeated (JNum 7) [Sample.d1; Sample.d2]
                (Sample.always (Sample.ok200 (JObj [])) true) Sample.w_listed
                eq_refl) as T.
  cbv zeta in T. destruct T as (T1 & _ & T2).
  - repeat constructor.
  - split.
    + apply T1. intros d [<- | [<- | []]]; reflexivity.
    + rewrite T2. reflexivity.
Defined.

(** ** The profile panel: the Run Analysis request *)

Module RunFacts.
Import ProfilePanel.

Lemma filter_remove_nth (k : nat) (l : list Pending) (p : Pending) :
  nth_error l k = Some p ->
  length (filter is_run l)
  = ((if is_run p then 1 else 0) + length (filter is_run (remove_nth k l)))%nat.
Proof.
  revert k. induction l as [|x l IH]; intros k Hk.
  - destruct k; discriminate Hk.
  - destruct k as [|k]; cbn [nth_error remove_nth] in *.
    + inversion Hk; subst. cbn [filter]. destruct (is_run p); cbn; lia.
    + cbn [filter]. pose proof (IH k Hk) as E.
      destruct (is_run x), (is_run p); cbn [length] in *; lia.
Qed.

Lemma step_keeps_balance (s : State) (e : Ev) :
  runs_in_flight s = (if loading s then 1 else 0)%nat ->
  runs_in_flight (step s e) = (if loading (step s e) then 1 else 0)%nat.
Proof.
  unfold runs_in_flight. intros H. destruct e as [ds| |t|k o]; cbn [step].
  - destruct (strict_eq _ _); cbn [with_dataset effect inflight loading]; [exact H|].
    rewrite filter_app, length_app. cbn. lia.
  - unfold runProfile. destruct (loading s) eqn:L; [now rewrite L|].
    cbn [issue setLoading inflight loading]. rewrite filter_app, length_app, H. reflexivity.
  - exact H.
  - destruct (nth_error (inflight s) k) as [p|] eqn:Hk; [|exact H].
    pose proof (filter_remove_nth k _ p Hk) as Hrem.
    destruct (is_run p) eqn:Ep; unfold is_run in Ep;
      destruct (p_origin p); try discriminate Ep;
      destruct (settled o);
      cbn [resume drop setData setLoading add_alert inflight loading];
      destruct (loading s); lia.
Qed.

End RunFacts.

(** X11: In every state the profile panel can reach, at most one Run Analysis
    request is in flight, and [loading] (which disables the button and
    shows the spinner) is true exactly while there is one: changing the
    dataset or the tab does not release it, only the answer does. *)
Theorem loading_tracks_the_run_request (s : ProfilePanel.State) :
  ProfilePanel.reachable s ->
  (runs_in_flight s <= 1)%nat
  /\ (ProfilePanel.loading s = true <-> runs_in_flight s = 1%nat)
  /\ (ProfilePanel.loading s = true <->
        exists k p, nth_error (ProfilePanel.inflight s) k = Some p
                    /\ ProfilePanel.p_origin p = ProfilePanel.FromRun).
Proof.
  intros [ds [evs ->]].
  assert (H : runs_in_flight (ProfilePanel.run (ProfilePanel.mount ds) evs)
              = (if ProfilePanel.loading (ProfilePanel.run (ProfilePanel.mount ds) evs)
                 then 1 else 0)%nat).
  { unfold ProfilePanel.run.
    assert (H0 : runs_in_flight (ProfilePanel.mount ds)
                 = (if ProfilePanel.loading (ProfilePanel.mount ds) then 1 else 0)%nat)
      by reflexivity.
    revert H0. generalize (ProfilePanel.mount ds). induction evs as [|e evs IH]; intros s H0.
    - exact H0.
    - cbn [fold_left]. apply IH. now apply RunFacts.step_keeps_balance. }
  set (s := ProfilePanel.run (ProfilePanel.mount ds) evs) in *.
  split; [destruct (ProfilePanel.loading s); lia|].
  split; [destruct (ProfilePanel.loading s); split; (congruence || lia)|].
  split.
  - intros L. rewrite L in H. unfold runs_in_flight in H.
    destruct (filter is_run (ProfilePanel.inflight s)) as [|p rest] eqn:F; [discriminate|].
    assert (Hin : In p (filter is_run (ProfilePanel.inflight s))) by (rewrite F; now left).
    apply filter_In in Hin as [Hin Hrun].
    apply In_nth_error in Hin as [k Hk]. exists k, p. split; [exact Hk|].
    unfold is_run in Hrun. now destruct (ProfilePanel.p_origin p).
  - intros [k [p [Hk Hp]]].
    pose proof (RunFacts.filter_remove_nth k _ p Hk) as Hrem.
    unfold is_run at 2 in Hrem. rewrite Hp in Hrem.
    unfold runs_in_flight in H. destruct (ProfilePanel.loading s); [reflexivity | lia].
Qed.

Lemma loading_tracks_the_run_request_witness :
  let s := ProfilePanel.run (ProfilePanel.mount Sample.d1)
             [ProfilePanel.RunClick; ProfilePanel.Props Sample.d2; ProfilePanel.RunClick] in
  runs_in_flight s = 1%nat /\ length (ProfilePanel.inflight s) = 3%nat
  /\ (ProfilePanel.loading s = true <-> runs_in_flight s = 1%nat).
Proof.
  cbv zeta. split; [reflexivity|]. split; [reflexivity|].
  apply (loading_tracks_the_run_request
           (ProfilePanel.run (ProfilePanel.mount Sample.d1)
              [ProfilePanel.RunClick; ProfilePanel.Props Sample.d2; ProfilePanel.RunClick])).
  exists Sample.d1,
    [ProfilePanel.RunClick; ProfilePanel.Props Sample.d2; ProfilePanel.RunClick].
  reflexivity.
Defined.

(** ** Panels with their own state *)

Ltac run_panel :=
  cbv beta iota zeta delta
    [p_after p_finally p_try p_bind p_api p_fetch p_lift p_alert p_modify p_read p_ret
     AIPanel.run AIPanel.setResult AIPanel.setLoading
     RulesHandlers.loadRules RulesHandlers.effect RulesHandlers.addRule
     RulesHandlers.deleteRule RulesHandlers.validate RulesHandlers.clickValidate
     RulesHandlers.clickAdd RulesHandlers.changeColumn RulesHandlers.changeRuleType
     RulesHandlers.setRules RulesHandlers.setForm RulesHandlers.setParamStr
     RulesHandlers.setValResult RulesHandlers.setLoading RulesHandlers.perform].

Ltac split_panel :=
  repeat (cbn [panel seen fst snd];
          match goal with
          | |- context [net ?o ?n ?r] => destruct (net o n r) eqn:?
          | |- context [api_then ?r] => destruct (api_then r) eqn:?
          | |- context [get ?a ?k] => destruct (get a k) eqn:?
          | |- context [if ?b then _ else _] => destruct b eqn:?
          end);
  cbn [panel seen fst snd].

(** X12: [AIPanel.run]: one POST to the analysis endpoint.  The previous
    result is dropped before the request is sent, so after a failure the
    panel holds no analysis at all (the placeholder card is shown) and
    one alert has been raised; after a success it holds the answer.
    Either way [loading] is false when the handler ends. *)
Theorem ai_run_outcome (dataset : jsval) (o : Oracle) (w : Scene AIPanel.State) :
  defined dataset = true ->
  let w' := p_after (AIPanel.run dataset) o w in
  let req := analyze_request dataset in
  fst (AIPanel.run dataset o w) = Ok tt
  /\ AIPanel.ai_loading (panel w') = false
  /\ match ProfilePanel.settled (net o (length (requests (seen w))) req) with
     | Ok v =>
         AIPanel.ai_result (panel w') = v
         /\ seen w' = (seen w ++ [EvFetch req])%list
     | Throw e =>
         AIPanel.ai_result (panel w') = JNull
         /\ AIPanel.placeholder (panel w') = true
         /\ seen w' = (seen w ++ [EvFetch req; EvAlert ("AI error: " ++ message e)])%list
     end.
Proof.
  intros Hdef. cbv zeta. destruct w as [s tr]. unfold analyze_request, AIPanel.analyze_path.
  run_panel. rewrite !(get_defined dataset "id" Hdef). cbn [panel seen fst snd].
  destruct (net o _ _) as [e|r]; cbn [ProfilePanel.settled panel seen fst snd].
  - rewrite <- app_assoc. repeat split.
  - destruct (api_then r); cbn [panel seen fst snd]; rewrite <- ?app_assoc; repeat split.
Qed.

Lemma ai_run_outcome_witness :
  let w := {| panel := {| AIPanel.ai_result := JObj [("ai_analysis", JStr "old")];
                          AIPanel.ai_loading := false |};
              seen := [] |} in
  let w' := p_after (AIPanel.run Sample.d1) (Sample.always Sample.r422 true) w in
  AIPanel.ai_result (panel w') = JNull
  /\ AIPanel.placeholder (panel w') = true
  /\ seen w' = [EvFetch (analyze_request Sample.d1);
                EvAlert "AI error: 422 Unprocessable Entity"].
Proof.
  cbv zeta.
  pose proof (ai_run_outcome Sample.d1 (Sample.always Sample.r422 true)
                {| panel := {| AIPanel.ai_result := JObj [("ai_analysis", JStr "old")];
                               AIPanel.ai_loading := false |};
                   seen := [] |} eq_refl) as T.
  cbv zeta in T. destruct T as (_ & _ & T). exact T.
Defined.

Section Rules.

Variable JSON_parse : string -> result jsval.
Variable JSON_stringify : jsval -> string.
Variable dataset : jsval.
Hypothesis dataset_defined : defined dataset = true.

(** X13: Nothing is sent for a rule that cannot be sent: with an empty column
    name the Add button is disabled and a click does nothing at all; with
    parameters that [JSON.parse] refuses, [addRule] raises the alert
    "Parameters must be valid JSON" and returns.  In both cases the form
    and the rule list stay as they are and no request is issued. *)
Theorem unsendable_rule_is_not_sent (o : Oracle) (w : Scene RulesHandlers.State) :
  (RulesHandlers.column_name (RulesHandlers.form (panel w)) = "" ->
     RulesHandlers.clickAdd JSON_parse JSON_stringify dataset o w = (Ok tt, w))
  /\ (forall e, JSON_parse (RulesHandlers.paramStr (panel w)) = Throw e ->
        RulesHandlers.addRule JSON_parse JSON_stringify dataset o w
        = (Ok tt, {| panel := panel w;
                     seen := (seen w ++ [EvAlert "Parameters must be valid JSON"])%list |})
        /\ requests
             (seen (p_after (RulesHandlers.addRule JSON_parse JSON_stringify dataset) o w))
           = requests (seen w)).
Proof.
  split.
  - intros Hcol. unfold RulesHandlers.clickAdd, RulesHandlers.add_disabled.
    rewrite Hcol. reflexivity.
  - intros e Hparse. unfold p_after. run_panel. rewrite Hparse.
    cbn [panel seen fst snd]. split; [now destruct w|].
    rewrite requests_app. cbn. now rewrite app_nil_r.
Qed.

(** X14: [addRule] with parameters that parse: the rule is posted as
    [JSON.stringify({...form, parameters})].  When the POST succeeds the
    rule list is re-read and the form goes back to its initial state
    (empty column, type range, the range template); when it fails an
    alert is raised, no list is re-read and the panel keeps everything
    the user typed.  A validation result on screen is kept either way. *)
Theorem addRule_outcome (o : Oracle) (w : Scene RulesHandlers.State) (params : jsval) :
  JSON_parse (RulesHandlers.paramStr (panel w)) = Ok params ->
  let w' := p_after (RulesHandlers.addRule JSON_parse JSON_stringify dataset) o w in
  let req := add_rule_request dataset
               (JSON_stringify (RulesHandlers.rule_json (RulesHandlers.form (panel w)) params)) in
  fst (RulesHandlers.addRule JSON_parse JSON_stringify dataset o w) = Ok tt
  /\ RulesHandlers.valResult (panel w') = RulesHandlers.valResult (panel w)
  /\ match ProfilePanel.settled (net o (length (requests (seen w))) req) with
     | Ok _ =>
         RulesHandlers.form (panel w') = RulesHandlers.initialForm
         /\ RulesHandlers.paramStr (panel w') = RulesHandlers.range_template
         /\ seen w' = (seen w ++ [EvFetch req; EvFetch (rules_request dataset)])%list
     | Throw e =>
         panel w' = panel w
         /\ seen w' = (seen w ++ [EvFetch req; EvAlert ("Add rule error: " ++ message e)])%list
     end.
Proof.
  intros Hparse. cbv zeta. destruct w as [s tr]. cbn [panel seen] in *.
  unfold add_rule_request, rules_request, RulesHandlers.rules_path.
  run_panel. cbn [panel seen fst snd]. rewrite !Hparse.
  rewrite !(get_defined dataset "id" dataset_defined). cbn [panel seen fst snd].
  destruct (net o (length (requests tr)) _) as [e|r];
    cbn [ProfilePanel.settled panel seen fst snd].
  - rewrite <- app_assoc. repeat split.
  - destruct (api_then r); cbn [panel seen fst snd].
    + split_panel; rewrite <- ?app_assoc; repeat split.
    + rewrite <- app_assoc. repeat split.
Qed.

(** X15: Run Validation.  The button is disabled, and a click does nothing,
    while the rule list is empty or a validation is running.  Otherwise
    the result on screen is dropped, one POST is sent, and the panel ends
    with the answer as its result, or with no result and an alert when
    the request fails; [loading] is false at the end. *)
Theorem validate_outcome (o : Oracle) (w : Scene RulesHandlers.State) :
  let w' := p_after (RulesHandlers.clickValidate dataset) o w in
  let req := validate_request dataset in
  (RulesHandlers.rules (panel w) = JArr [] \/ RulesHandlers.loading (panel w) = true ->
     RulesHandlers.clickValidate dataset o w = (Ok tt, w))
  /\ (RulesHandlers.validate_disabled (panel w) = false ->
       fst (RulesHandlers.clickValidate dataset o w) = Ok tt
       /\ RulesHandlers.loading (panel w') = false
       /\ RulesHandlers.rules (panel w') = RulesHandlers.rules (panel w)
       /\ match ProfilePanel.settled (net o (length (requests (seen w))) req) with
          | Ok v =>
              RulesHandlers.valResult (panel w') = v
              /\ seen w' = (seen w ++ [EvFetch req])%list
          | Throw e =>
              RulesHandlers.valResult (panel w') = JNull
              /\ seen w' = (seen w ++ [EvFetch req;
                                       EvAlert ("Validation error: " ++ message e)])%list
          end).
Proof.
  cbv zeta. split.
  - intros H. unfold RulesHandlers.clickValidate, RulesHandlers.validate_disabled.
    destruct H as [H | H]; rewrite H; [|reflexivity].
    now destruct (RulesHandlers.loading (panel w)).
  - intros Hen. destruct w as [s tr]. unfold validate_request.
    unfold RulesHandlers.clickValidate, p_after. cbn [panel] in *. rewrite Hen.
    run_panel. rewrite !(get_defined dataset "id" dataset_defined). cbn [panel seen fst snd].
    destruct (net o _ _) as [e|r]; cbn [ProfilePanel.settled panel seen fst snd].
    + rewrite <- app_assoc. repeat split.
    + destruct (api_then r); cbn [panel seen fst snd]; rewrite <- ?app_assoc; repeat split.
Qed.

(** X16: [deleteRule]: one DELETE for the rule; the rule list is re-read only
    when the DELETE succeeded, and a failure raises an alert and leaves
    the panel as it was. *)
Theorem deleteRule_outcome (ruleId : jsval) (o : Oracle) (w : Scene RulesHandlers.State) :
  let w' := p_after (RulesHandlers.deleteRule dataset ruleId) o w in
  let req := delete_rule_request dataset ruleId in
  fst (RulesHandlers.deleteRule dataset ruleId o w) = Ok tt
  /\ match ProfilePanel.settled (net o (length (requests (seen w))) req) with
     | Ok _ =>
         seen w' = (seen w ++ [EvFetch req; EvFetch (rules_request dataset)])%list
         /\ RulesHandlers.form (panel w') = RulesHandlers.form (panel w)
         /\ RulesHandlers.valResult (panel w') = RulesHandlers.valResult (panel w)
     | Throw e =>
         panel w' = panel w
         /\ seen w' = (seen w ++ [EvFetch req; EvAlert ("Delete error: " ++ message e)])%list
     end.
Proof.
  cbv zeta. destruct w as [s tr]. cbn [panel seen] in *.
  unfold delete_rule_request, rules_request, RulesHandlers.rules_path.
  run_panel. rewrite !(get_defined dataset "id" dataset_defined). cbn [panel seen fst snd].
  destruct (net o (length (requests tr)) _) as [e|r];
    cbn [ProfilePanel.settled panel seen fst snd].
  - rewrite <- app_assoc. repeat split.
  - destruct (api_then r); cbn [panel seen fst snd].
    + split_panel; rewrite <- ?app_assoc; repeat split.
    + rewrite <- app_assoc. repeat split.
Qed.

End Rules.

Lemma js_nullish_defined (v : jsval) : defined (js_nullish v (JArr [])) = true.
Proof. destruct v; reflexivity. Qed.

(** X17: [loadRules] never throws and never raises an alert.  It sends one
    GET; when the answer resolves to an object the rule list becomes its
    [rules] field, or the empty array when that field is missing or null;
    when the request fails the panel stays as it was. *)
Theorem loadRules_outcome (dataset : jsval) (o : Oracle) (w : Scene RulesHandlers.State) :
  defined dataset = true ->
  let w' := p_after (RulesHandlers.loadRules dataset) o w in
  let req := rules_request dataset in
  fst (RulesHandlers.loadRules dataset o w) = Ok tt
  /\ seen w' = (seen w ++ [EvFetch req])%list
  /\ RulesHandlers.form (panel w') = RulesHandlers.form (panel w)
  /\ RulesHandlers.valResult (panel w') = RulesHandlers.valResult (panel w)
  /\ match ProfilePanel.settled (net o (length (requests (seen w))) req) with
     | Ok r =>
         if defined r
         then RulesHandlers.rules (panel w') = js_nullish (prop r "rules") (JArr [])
         else panel w' = panel w
     | Throw _ => panel w' = panel w
     end.
Proof.
  intros Hdef. cbv zeta. destruct w as [s tr].
  unfold rules_request, RulesHandlers.rules_path.
  run_panel. rewrite !(get_defined dataset "id" Hdef). cbn [panel seen fst snd].
  destruct (net o _ _) as [e|r]; cbn [ProfilePanel.settled panel seen fst snd].
  - repeat split.
  - destruct (api_then r) as [data|e]; cbn [panel seen fst snd]; [|repeat split].
    destruct data; cbn [get defined panel seen fst snd]; repeat split.
Qed.

Lemma loadRules_outcome_witness :
  let o := Sample.always (Sample.ok200 (JObj [("rules", JNull)])) true in
  let w' := p_after (RulesHandlers.loadRules Sample.d1) o
                    {| panel := RulesHandlers.initial; seen := [] |} in
  seen w' = [EvFetch (rules_request Sample.d1)]
  /\ RulesHandlers.rules (panel w') = JArr [].
Proof.
  cbv zeta.
  pose proof (loadRules_outcome Sample.d1
                (Sample.always (Sample.ok200 (JObj [("rules", JNull)])) true)
                {| panel := RulesHandlers.initial; seen := [] |} eq_refl) as T.
  cbv zeta in T. destruct T as (_ & T1 & _ & _ & T2).
  split; [exact T1 | exact T2].
Defined.

Lemma perform_keeps_rules_defined
    (JSON_parse : string -> result jsval) (JSON_stringify : jsval -> string)
    (dataset : jsval) (a : RulesHandlers.Action) (o : Oracle) (w : Scene RulesHandlers.State) :
  defined (RulesHandlers.rules (panel w)) = true /\ RulesHandlers.loading (panel w) = false ->
  let w' := p_after (RulesHandlers.perform JSON_parse JSON_stringify dataset a) o w in
  defined (RulesHandlers.rules (panel w')) = true /\ RulesHandlers.loading (panel w') = false.
Proof.
  intros [Hr Hl]. cbv zeta. destruct w as [s tr]. cbn [panel] in *.
  destruct a; unfold p_after, RulesHandlers.perform.
  - run_panel. split_panel; cbn; auto using js_nullish_defined.
  - run_panel. cbn. auto.
  - run_panel. cbn. auto.
  - run_panel. cbn. auto.
  - unfold RulesHandlers.clickAdd. cbn [panel].
    destruct (RulesHandlers.add_disabled s); [cbn; auto|].
    run_panel. cbn [panel seen fst snd].
    destruct (JSON_parse (RulesHandlers.paramStr s)); [|cbn; auto].
    split_panel; cbn; auto using js_nullish_defined.
  - run_panel. split_panel; cbn; auto using js_nullish_defined.
  - unfold RulesHandlers.clickValidate. cbn [panel].
    destruct (RulesHandlers.validate_disabled s); [cbn; auto|].
    run_panel. split_panel; cbn; auto.
Qed.

(** X18: Whatever the user does with the rules panel and whatever the service
    answers, once each handler has run the rule list is never [null] or
    [undefined] (reading [rules.length] cannot throw) and [loading] is
    false, so Run Validation is never left disabled by a finished
    request. *)
Theorem rules_panel_stays_renderable
    (JSON_parse : string -> result jsval) (JSON_stringify : jsval -> string)
    (dataset : jsval) (acts : list RulesHandlers.Action) (o : Oracle) :
  let w' := RulesHandlers.session JSON_parse JSON_stringify dataset acts o
              {| panel := RulesHandlers.initial; seen := [] |} in
  defined (RulesHandlers.rules (panel w')) = true
  /\ RulesHandlers.loading (panel w') = false.
Proof.
  cbv zeta.
  assert (H0 : defined (RulesHandlers.rules
                          (panel {| panel := RulesHandlers.initial; seen := [] |})) = true
               /\ RulesHandlers.loading
                    (panel {| panel := RulesHandlers.initial; seen := [] |}) = false)
    by (split; reflexivity).
  revert H0. generalize ({| panel := RulesHandlers.initial; seen := @nil Event |}).
  induction acts as [|a acts IH]; intros w H0; [exact H0|].
  cbn [RulesHandlers.session]. apply IH.
  exact (perform_keeps_rules_defined JSON_parse JSON_stringify dataset a o w H0).
Qed.

Lemma addRule_outcome_witness :
  let ok := Sample.always (Sample.ok200 (JObj [("rules", JArr [])])) true in
  let ko := Sample.always Sample.r422 true in
  RulesHandlers.form
    (panel (p_after (RulesHandlers.addRule sample_parse sample_stringify Sample.d1)
                    ok sample_rules_scene))
  = RulesHandlers.initialForm
  /\ panel (p_after (RulesHandlers.addRule sample_parse sample_stringify Sample.d1)
                    ko sample_rules_scene)
     = panel sample_rules_scene.
Proof.
  cbv zeta. split.
  - pose proof (addRule_outcome sample_parse sample_stringify Sample.d1 eq_refl
                  (Sample.always (Sample.ok200 (JObj [("rules", JArr [])])) true)
                  sample_rules_scene (JObj []) eq_refl) as T.
    cbv zeta in T. destruct T as (_ & _ & T). apply T.
  - pose proof (addRule_outcome sample_parse sample_stringify Sample.d1 eq_refl
                  (Sample.always Sample.r422 true)
                  sample_rules_scene (JObj []) eq_refl) as T.
    cbv zeta in T. destruct T as (_ & _ & T). apply T.
Defined.

Lemma validate_outcome_witness :
  let w' := p_after (RulesHandlers.clickValidate Sample.d1)
                    (Sample.always Sample.r422 true) sample_rules_scene in
  RulesHandlers.clickValidate Sample.d1 (Sample.always Sample.r422 true)
    {| panel := RulesHandlers.initial; seen := [] |}
  = (Ok tt, {| panel := RulesHandlers.initial; seen := [] |})
  /\ RulesHandlers.valResult (panel w') = JNull
  /\ RulesHandlers.loading (panel w') = false.
Proof.
  cbv zeta.
  pose proof (validate_outcome Sample.d1 eq_refl (Sample.always Sample.r422 true)
                {| panel := RulesHandlers.initial; seen := [] |}) as T0.
  pose proof (validate_outcome Sample.d1 eq_refl (Sample.always Sample.r422 true)
                sample_rules_scene) as T.
  cbv zeta in T0, T. destruct T0 as (T0 & _). destruct T as (_ & T).
  specialize (T eq_refl). destruct T as (_ & T1 & _ & T2).
  split; [apply T0; now left|]. split; [apply T2 | exact T1].
Defined.

Lemma deleteRule_outcome_witness :
  seen (p_after (RulesHandlers.deleteRule Sample.d1 (JNum 5))
                (Sample.always (Sample.ok200 (JObj [("rules", JArr [])])) true)
                sample_rules_scene)
  = [EvFetch (delete_rule_request Sample.d1 (JNum 5)); EvFetch (rules_request Sample.d1)].
Proof.
  pose proof (deleteRule_outcome Sample.d1 eq_refl (JNum 5)
                (Sample.always (Sample.ok200 (JObj [("rules", JArr [])])) true)
                sample_rules_scene) as T.
  cbv zeta in T. destruct T as (_ & T). apply T.
Defined.

(** ** Uploading a new version, continued *)

(** X19: A new-version upload that [api] rejects is reported once and not
    repeated: one POST, no reload of the version list, the alert
    "Upload failed: " followed by the error message, [uploading] false at
    the end, and the version list and selection as they were. *)
Theorem new_version_failure_is_reported_once
    (dataset : jsval) (f : File) (o : Oracle) (w : World) (e : Error) :
  endsWith (name f) ".csv" = true ->
  defined dataset = true ->
  ProfilePanel.settled (net o (length (requests (trace w))) (new_version_request dataset f))
  = Throw e ->
  let w' := after (uploadNewVersion dataset (Some f)) o w in
  fst (uploadNewVersion dataset (Some f) o w) = Ok tt
  /\ trace w' = (trace w ++ [EvFetch (new_version_request dataset f);
                             EvAlert ("Upload failed: " ++ message e)])%list
  /\ vp_uploading (versionsPanel (store w')) = false
  /\ versions (versionsPanel (store w')) = versions (versionsPanel (store w))
  /\ selectedV1 (versionsPanel (store w')) = selectedV1 (versionsPanel (store w))
  /\ selectedV2 (versionsPanel (store w')) = selectedV2 (versionsPanel (store w))
  /\ app (store w') = app (store w)
  /\ uploadZone (store w') = uploadZone (store w).
Proof.
  intros Hcsv Hdef Hfail. cbv zeta. destruct w as [st tr].
  unfold uploadNewVersion. rewrite (csv_guard f Hcsv).
  run_handler. cbn [store trace fst snd] in *.
  rewrite !(get_defined dataset "id" Hdef). fold (new_version_request dataset f).
  cbn [store trace fst snd].
  destruct (net o _ _) as [e0|r]; cbn [ProfilePanel.settled store trace fst snd] in *.
  - inversion Hfail; subst. rewrite <- app_assoc. repeat split.
  - rewrite !Hfail. cbn [store trace fst snd]. rewrite <- app_assoc. repeat split.
Qed.

Lemma new_version_failure_is_reported_once_witness :
  let w' := after (uploadNewVersion Sample.d1 (Some Sample.csv))
                  (Sample.always Sample.r422 true) Sample.w0 in
  requests (trace w') = [new_version_request Sample.d1 Sample.csv]
  /\ vp_uploading (versionsPanel (store w')) = false.
Proof.
  cbv zeta.
  pose proof (new_version_failure_is_reported_once Sample.d1 Sample.csv
                (Sample.always Sample.r422 true) Sample.w0
                (mkError "422 Unprocessable Entity") eq_refl eq_refl eq_refl) as T.
  cbv zeta in T. destruct T as (_ & T1 & T2 & _).
  split; [now rewrite T1 | exact T2].
Defined.

Lemma new_version_success_witness :
  let w' := after (uploadNewVersion Sample.d1 (Some Sample.csv))
                  (Sample.always (Sample.ok200 (JObj [("versions", JArr [Sample.d1])])) true)
                  Sample.w_listed in
  requests (trace w')
  = [new_version_request Sample.d1 Sample.csv; versions_request Sample.d1]
  /\ app (store w') = app (store Sample.w_listed).
Proof.
  cbv zeta.
  pose proof (new_version_success Sample.d1 Sample.csv
                (Sample.always (Sample.ok200 (JObj [("versions", JArr [Sample.d1])])) true)
                Sample.w_listed (Sample.ok200 (JObj [("versions", JArr [Sample.d1])]))
                (JObj [("versions", JArr [Sample.d1])])
                eq_refl eq_refl eq_refl eq_refl eq_refl) as T.
  cbv zeta in T. destruct T as (T1 & T2).
  split; [now rewrite T1 | exact T2].
Defined.

(** ** Rendering at the edges *)

(** X21: Without a sample there is no violation panel: when
    [violation_details] is missing, null or empty, nothing is rendered
    for it, whatever total [violations] reports. *)
Theorem violations_hidden_without_sample (r : jsval) :
  defined r = true ->
  prop r "violation_details" = JUndef
  \/ prop r "violation_details" = JNull
  \/ prop r "violation_details" = JArr [] ->
  RulesPanel.render_violations r = Ok [].
Proof.
  intros Hdef H. unfold RulesPanel.render_violations.
  rewrite (get_defined r "violation_details" Hdef). cbn [rbind].
  destruct H as [-> | [-> | ->]]; reflexivity.
Qed.

Lemma violations_hidden_without_sample_witness :
  RulesPanel.render_violations
    (JObj [("rule_id", JNum 1); ("status", JStr "FAILED"); ("violations", JNum 12);
           ("violation_details", JArr [])])
  = Ok [].
Proof.
  apply violations_hidden_without_sample; [reflexivity|]. right. right. reflexivity.
Defined.

(** X22: The diagnostic box shows only the fields that were sent: a detail
    object whose [reason], [explanation], [found_issues] and
    [how_to_fix] are all missing is drawn as the headline followed by an
    empty box, and a message without [details] is the headline alone. *)
Theorem message_block_skips_missing_fields (ok_flag : bool) (t : string) (d : jsval) :
  prop d "reason" = JUndef ->
  prop d "explanation" = JUndef ->
  prop d "found_issues" = JUndef ->
  prop d "how_to_fix" = JUndef ->
  let headline := El "p" [Text (if ok_flag then "✓" else "✗"); Text " "; Text t] in
  (truthy d = true ->
     UploadZone.render_msg (Some {| msg_ok := ok_flag; text := JStr t; details := d |})
     = Ok [El "div" [headline; El "div" []]])
  /\ (d = JUndef ->
       UploadZone.render_msg (Some {| msg_ok := ok_flag; text := JStr t; details := d |})
       = Ok [El "div" [headline]]).
Proof.
  intros Hr He Hi Hf. cbv zeta.
  unfold UploadZone.render_msg, UploadZone.render_details,
    UploadZone.render_found_issues, and_then.
  cbn [text details msg_ok child rbind]. rewrite Hr, He, Hi, Hf.
  split.
  - intros Td. rewrite Td. reflexivity.
  - intros ->. reflexivity.
Qed.

Lemma message_block_skips_missing_fields_witness :
  UploadZone.render_msg
    (Some {| msg_ok := false; text := JStr "bad header";
             details := JObj [("error", JStr "bad header")] |})
  = Ok [El "div" [El "p" [Text "✗"; Text " "; Text "bad header"]; El "div" []]].
Proof.
  pose proof (message_block_skips_missing_fields false "bad header"
                (JObj [("error", JStr "bad header")]) eq_refl eq_refl eq_refl eq_refl) as T.
  cbv zeta in T. apply T. reflexivity.
Defined.
